(** * PerformanceService: the data-access layer for performance records

    A shallow embedding of the class [PerformanceService] and of the
    [performances] table of the generated schema typing
    (src/integrations/supabase/types.ts).

    The service talks to two collaborators that live outside the file: the
    Supabase client ([this.supabase], inherited from [BaseService]) and
    [googleDriveService].  Both are taken as interfaces over an abstract world
    (type classes [SupabaseClient] and [GoogleDriveService]); every awaited call
    either fulfils with a value or rejects with a thrown value.  A service
    method is a computation in a small state/exception/trace monad [M]: it
    threads the world through the awaited calls, may throw, and records every
    external call and every console message it makes. *)

From Stdlib Require Import String List Bool Arith Lia DecimalString.
From Stdlib Require Import Sorted Permutation.
Import ListNotations.
Local Open Scope string_scope.
Local Open Scope list_scope.

Set Implicit Arguments.

(** ** JavaScript values *)

(** A value thrown by [throw] or carried by a rejected promise. *)
Inductive JsError : Type :=
| TypeError (message : string)
| ThrownError (message : string).

(** An awaited promise, once settled. *)
Inductive Settled (A : Type) : Type :=
| Fulfilled (a : A)
| Rejected (e : JsError).
Arguments Rejected {A} e.

(** An optional, nullable property of an object literal sent to the store
    ([column?: T | null]): the key is left out, or holds [null], or a value. *)
Inductive Column (A : Type) : Type :=
| Omitted
| Null
| Value (a : A).
Arguments Omitted {A}.
Arguments Null {A}.

(** [x] of type [T | undefined] placed under a key: [undefined] leaves the
    key out of the serialised object. *)
Definition ofUndefined {A : Type} (x : option A) : Column A :=
  match x with Some a => Value a | None => Omitted end.

(** [x] of type [T | null] placed under a key. *)
Definition ofNull {A : Type} (x : option A) : Column A :=
  match x with Some a => Value a | None => Null end.

(** Truthiness of a string: only the empty string is falsy. *)
Definition truthy (s : string) : bool := negb (String.eqb s "").

(** [x || undefined] for [x : string | null]. *)
Definition orUndefined (x : option string) : option string :=
  match x with
  | Some s => if truthy s then Some s else None
  | None => None
  end.

(** [x || []] for [x : string[] | null] (every array is truthy). *)
Definition orEmptyArray (x : option (list string)) : list string :=
  match x with
  | Some l => l
  | None => []
  end.

(** ** The [performances] table (types.ts) *)

Module Row.
Record t : Type := mk {
  cover_image : option string;
  created_at : string;
  created_by : string;
  description : option string;
  drive_folder_id : option string;
  end_date : option string;
  id : string;
  start_date : option string;
  tagged_users : option (list string);
  title : string;
  updated_at : string
}.
End Row.

Module RowInsert.
Record t : Type := mk {
  cover_image : Column string;
  created_at : Column string;
  created_by : string;
  description : Column string;
  drive_folder_id : Column string;
  end_date : Column string;
  id : Column string;
  start_date : Column string;
  tagged_users : Column (list string);
  title : string;
  updated_at : Column string
}.
End RowInsert.

Module RowUpdate.
Record t : Type := mk {
  cover_image : Column string;
  created_at : Column string;
  created_by : Column string;
  description : Column string;
  drive_folder_id : Column string;
  end_date : Column string;
  id : Column string;
  start_date : Column string;
  tagged_users : Column (list string);
  title : Column string;
  updated_at : Column string
}.

(** [{}] *)
Definition empty : t :=
  mk Omitted Omitted Omitted Omitted Omitted Omitted Omitted Omitted Omitted
     Omitted Omitted.
End RowUpdate.

(** ** Domain types *)

(** Modelled from the spec: the [Performance] type is imported from "@/types",
    which is not part of the sources; its fields are those of the object
    literals the service returns (spec section 3).  An optional field is
    [None] when it is [undefined]. *)
Module Performance.
Record t : Type := mk {
  id : string;
  title : string;
  description : option string;
  coverImage : option string;
  startDate : option string;
  endDate : option string;
  createdAt : string;
  updatedAt : string;
  createdBy : string;
  taggedUsers : list string;
  driveFolderId : option string
}.
End Performance.

Module CreatePerformanceData.
Record t : Type := mk {
  title : string;
  description : option string;
  coverImage : option string;
  startDate : option string;
  endDate : option string;
  taggedUsers : option (list string);
  createdBy : string
}.
End CreatePerformanceData.

(** [Partial<CreatePerformanceData>] with a required [id]. *)
Module UpdatePerformanceData.
Record t : Type := mk {
  title : option string;
  description : option string;
  coverImage : option string;
  startDate : option string;
  endDate : option string;
  taggedUsers : option (list string);
  createdBy : option string;
  id : string
}.
End UpdatePerformanceData.

(** ** The collaborators *)

Record PostgrestError : Type := mkPostgrestError {
  code : string;
  message : string
}.

(** What the query builder resolves to: [{ data, error }]. *)
Record Response (A : Type) : Type := mkResponse {
  data : option A;
  error : option PostgrestError
}.

Definition success {A : Type} (a : A) : Response A := mkResponse (Some a) None.
Definition failure {A : Type} (e : PostgrestError) : Response A :=
  mkResponse None (Some e).

(** The five queries the service builds on [this.supabase.from("performances")]. *)
Class SupabaseClient (W : Type) : Type := {
  (** [.select("*").order("created_at", { ascending: false })] *)
  selectOrdered : W -> Settled (Response (list Row.t)) * W;
  (** [.select("*").eq("id", id).single()] *)
  selectSingle : string -> W -> Settled (Response Row.t) * W;
  (** [.insert(row).select().single()] *)
  insertSingle : RowInsert.t -> W -> Settled (Response Row.t) * W;
  (** [.update(patch).eq("id", id).select().single()] *)
  updateSingle : RowUpdate.t -> string -> W -> Settled (Response Row.t) * W;
  (** [.delete().eq("id", id)] *)
  deleteEq : string -> W -> Settled (Response unit) * W
}.

(** Modelled from the spec: [googleDriveService] is imported from
    "./googleDriveService", which is not part of the sources; spec section 6
    gives [createFolder(name) -> folderId | null] and
    [deleteFolder(folderId) -> boolean], either of which may throw. *)
Class GoogleDriveService (W : Type) : Type := {
  createPerformanceFolder : string -> W -> Settled (option string) * W;
  deleteFolder : string -> W -> Settled bool * W
}.

(** ** Observable events *)

Inductive Level : Type := Log | Warn | Error.

(** An external call made by the service, or a console message (its first
    argument; a template string is written out). *)
Inductive Event : Type :=
| StoreSelectAll
| StoreSelectById (id : string)
| StoreInsert (row : RowInsert.t)
| StoreUpdate (patch : RowUpdate.t) (id : string)
| StoreDelete (id : string)
| DriveCreateFolder (title : string)
| DriveDeleteFolder (folderId : string)
| Console (level : Level) (text : string).

Definition isCall (e : Event) : bool :=
  match e with
  | Console _ _ => false
  | _ => true
  end.

Definition isDriveCall (e : Event) : bool :=
  match e with
  | DriveCreateFolder _ | DriveDeleteFolder _ => true
  | _ => false
  end.

(** The external calls of a trace, in order. *)
Definition calls (evs : list Event) : list Event := filter isCall evs.

(** The Folder Service calls of a trace, in order. *)
Definition driveCalls (evs : list Event) : list Event := filter isDriveCall evs.

(** ** The monad of service methods *)

Section Monad.
Variable W : Type.

Definition M (A : Type) : Type := W -> Settled A * W * list Event.

Definition ret {A : Type} (a : A) : M A := fun w => (Fulfilled a, w, []).

Definition throw {A : Type} (e : JsError) : M A := fun w => (Rejected e, w, []).

Definition bind {A B : Type} (m : M A) (k : A -> M B) : M B :=
  fun w =>
    match m w with
    | (Fulfilled a, w1, t1) =>
        match k a w1 with
        | (r, w2, t2) => (r, w2, t1 ++ t2)
        end
    | (Rejected e, w1, t1) => (Rejected e, w1, t1)
    end.

(** [try { m } catch (e) { h e }] *)
Definition tryCatch {A : Type} (m : M A) (h : JsError -> M A) : M A :=
  fun w =>
    match m w with
    | (Fulfilled a, w1, t1) => (Fulfilled a, w1, t1)
    | (Rejected e, w1, t1) =>
        match h e w1 with
        | (r, w2, t2) => (r, w2, t1 ++ t2)
        end
    end.

(** [await call], recorded as event [ev]. *)
Definition await {A : Type} (ev : Event) (call : W -> Settled A * W) : M A :=
  fun w =>
    match call w with
    | (r, w1) => (r, w1, [ev])
    end.

Definition console (level : Level) (text : string) : M unit :=
  fun w => (Fulfilled tt, w, [Console level text]).
End Monad.

Arguments ret {W A} a.
Arguments throw {W A} e.
Arguments bind {W A B} m k.
Arguments tryCatch {W A} m h.
Arguments await {W A} ev call.
Arguments console {W} level text.

Declare Scope service_scope.
Delimit Scope service_scope with service.
Notation "x <- m ;; k" := (bind m (fun x => k))
  (at level 61, m at next level, right associativity) : service_scope.
Notation "m ;; k" := (bind m (fun _ => k))
  (at level 61, right associativity) : service_scope.
Local Open Scope service_scope.

(** The settled result, the final world and the trace of a run. *)
Definition outcome {W A : Type} (x : Settled A * W * list Event) : Settled A :=
  fst (fst x).
Definition world {W A : Type} (x : Settled A * W * list Event) : W :=
  snd (fst x).
Definition trace {W A : Type} (x : Settled A * W * list Event) : list Event :=
  snd x.

(** ** PerformanceService *)

Section PerformanceService.
Context {W : Type} {supabase : SupabaseClient W}
        {googleDriveService : GoogleDriveService W}.

(** [data.id] and the like on [data = null] throw. *)
Definition nullDereference {A : Type} : M W A :=
  throw (TypeError "Cannot read properties of null").

Definition getPerformances : M W (list Performance.t) :=
  r <- await StoreSelectAll selectOrdered ;;
  match error r with
  | Some _ =>
      console Error "Error fetching performances:" ;;
      ret []
  | None =>
      match data r with
      | None => nullDereference
      | Some data =>
          ret (map (fun p =>
            {| Performance.id := Row.id p;
               Performance.title := Row.title p;
               Performance.description := orUndefined (Row.description p);
               Performance.coverImage := orUndefined (Row.cover_image p);
               Performance.startDate := orUndefined (Row.start_date p);
               Performance.endDate := orUndefined (Row.end_date p);
               Performance.createdAt := Row.created_at p;
               Performance.updatedAt := Row.updated_at p;
               Performance.createdBy := Row.created_by p;
               Performance.taggedUsers := orEmptyArray (Row.tagged_users p);
               Performance.driveFolderId := orUndefined (Row.drive_folder_id p)
            |}) data)
      end
  end.

Definition getPerformanceById (id : string) : M W (option Performance.t) :=
  console Log ("Fetching performance with ID: " ++ id)%string ;;
  r <- await (StoreSelectById id) (selectSingle id) ;;
  match error r with
  | Some _ =>
      console Error "Error fetching performance:" ;;
      ret None
  | None =>
      match data r with
      | None =>
          console Error "No performance found with ID:" ;;
          ret None
      | Some data =>
          console Log "Performance data retrieved:" ;;
          ret (Some
            {| Performance.id := Row.id data;
               Performance.title := Row.title data;
               Performance.description := orUndefined (Row.description data);
               Performance.coverImage := orUndefined (Row.cover_image data);
               Performance.startDate := orUndefined (Row.start_date data);
               Performance.endDate := orUndefined (Row.end_date data);
               Performance.createdAt := Row.created_at data;
               Performance.updatedAt := Row.updated_at data;
               Performance.createdBy := Row.created_by data;
               Performance.taggedUsers := orEmptyArray (Row.tagged_users data);
               Performance.driveFolderId := orUndefined (Row.drive_folder_id data)
            |})
      end
  end.

(** The object literal handed to [.insert(...)], for a given value of the
    local [driveFolderId : string | null]. *)
Definition insertRow (performanceData : CreatePerformanceData.t)
    (driveFolderId : option string) : RowInsert.t :=
  {| RowInsert.title := CreatePerformanceData.title performanceData;
     RowInsert.description :=
       ofUndefined (CreatePerformanceData.description performanceData);
     RowInsert.cover_image :=
       ofUndefined (CreatePerformanceData.coverImage performanceData);
     RowInsert.start_date :=
       ofUndefined (CreatePerformanceData.startDate performanceData);
     RowInsert.end_date :=
       ofUndefined (CreatePerformanceData.endDate performanceData);
     RowInsert.tagged_users :=
       ofUndefined (CreatePerformanceData.taggedUsers performanceData);
     RowInsert.created_by := CreatePerformanceData.createdBy performanceData;
     RowInsert.drive_folder_id := ofNull driveFolderId;
     RowInsert.id := Omitted;
     RowInsert.created_at := Omitted;
     RowInsert.updated_at := Omitted
  |}.

(** The inner [try]/[catch] of [createPerformance]: the value of the local
    [driveFolderId] after it.  The variable starts as [null] and is assigned
    only when the awaited call fulfils. *)
Definition createFolderStep (performanceData : CreatePerformanceData.t)
    : M W (option string) :=
  tryCatch
    (console Log "Creating performance folder in Google Drive for:" ;;
     driveFolderId <-
       await (DriveCreateFolder (CreatePerformanceData.title performanceData))
             (createPerformanceFolder
                (CreatePerformanceData.title performanceData)) ;;
     match driveFolderId with
     | Some folderId =>
         if truthy folderId
         then console Log
                ("Successfully created performance folder with ID: "
                   ++ folderId)%string
         else console Warn
                "Could not create Google Drive folder for performance. Will continue without folder ID."
     | None =>
         console Warn
           "Could not create Google Drive folder for performance. Will continue without folder ID."
     end ;;
     ret driveFolderId)
    (fun driveError =>
       console Error "Error creating Google Drive folder for performance:" ;;
       ret None).

Definition createPerformance (performanceData : CreatePerformanceData.t)
    : M W (option Performance.t) :=
  console Log "Creating performance with data:" ;;
  tryCatch
    (driveFolderId <- createFolderStep performanceData ;;
     r <- await (StoreInsert (insertRow performanceData driveFolderId))
                (insertSingle (insertRow performanceData driveFolderId)) ;;
     match error r with
     | Some _ =>
         console Error "Error creating performance:" ;;
         ret None
     | None =>
         console Log "Performance created successfully:" ;;
         match data r with
         | None => nullDereference
         | Some data =>
             ret (Some
               {| Performance.id := Row.id data;
                  Performance.title := Row.title data;
                  Performance.description := orUndefined (Row.description data);
                  Performance.coverImage := orUndefined (Row.cover_image data);
                  Performance.startDate := orUndefined (Row.start_date data);
                  Performance.endDate := orUndefined (Row.end_date data);
                  Performance.createdAt := Row.created_at data;
                  Performance.updatedAt := Row.updated_at data;
                  Performance.createdBy := Row.created_by data;
                  Performance.taggedUsers := orEmptyArray (Row.tagged_users data);
                  Performance.driveFolderId :=
                    orUndefined (Row.drive_folder_id data)
               |})
         end
     end)
    (fun error =>
       console Error "Unexpected error during performance creation:" ;;
       ret None).

(** The local [updateData]: starts as [{}]; a key is set when the input
    field is not [undefined]. *)
Definition updateData (performanceData : UpdatePerformanceData.t)
    : RowUpdate.t :=
  {| RowUpdate.title := ofUndefined (UpdatePerformanceData.title performanceData);
     RowUpdate.description :=
       ofUndefined (UpdatePerformanceData.description performanceData);
     RowUpdate.cover_image :=
       ofUndefined (UpdatePerformanceData.coverImage performanceData);
     RowUpdate.start_date :=
       ofUndefined (UpdatePerformanceData.startDate performanceData);
     RowUpdate.end_date :=
       ofUndefined (UpdatePerformanceData.endDate performanceData);
     RowUpdate.tagged_users :=
       ofUndefined (UpdatePerformanceData.taggedUsers performanceData);
     RowUpdate.created_by := RowUpdate.created_by RowUpdate.empty;
     RowUpdate.drive_folder_id := RowUpdate.drive_folder_id RowUpdate.empty;
     RowUpdate.id := RowUpdate.id RowUpdate.empty;
     RowUpdate.created_at := RowUpdate.created_at RowUpdate.empty;
     RowUpdate.updated_at := RowUpdate.updated_at RowUpdate.empty
  |}.

Definition updatePerformance (performanceData : UpdatePerformanceData.t)
    : M W (option Performance.t) :=
  r <- await (StoreUpdate (updateData performanceData)
                (UpdatePerformanceData.id performanceData))
             (updateSingle (updateData performanceData)
                (UpdatePerformanceData.id performanceData)) ;;
  match error r with
  | Some _ =>
      console Error "Error updating performance:" ;;
      ret None
  | None =>
      match data r with
      | None => nullDereference
      | Some data =>
          ret (Some
            {| Performance.id := Row.id data;
               Performance.title := Row.title data;
               Performance.description := orUndefined (Row.description data);
               Performance.coverImage := orUndefined (Row.cover_image data);
               Performance.startDate := orUndefined (Row.start_date data);
               Performance.endDate := orUndefined (Row.end_date data);
               Performance.createdAt := Row.created_at data;
               Performance.updatedAt := Row.updated_at data;
               Performance.createdBy := Row.created_by data;
               Performance.taggedUsers := orEmptyArray (Row.tagged_users data);
               Performance.driveFolderId := orUndefined (Row.drive_folder_id data)
            |})
      end
  end.

(** The inner [try]/[catch] of [deletePerformance], entered when
    [performance?.driveFolderId] is truthy. *)
Definition deleteFolderStep (id folderId : string) : M W unit :=
  tryCatch
    (console Log
       ("Attempting to delete Google Drive folder with ID: " ++ folderId)%string ;;
     folderDeleted <- await (DriveDeleteFolder folderId) (deleteFolder folderId) ;;
     if (folderDeleted : bool)
     then console Log
            ("Successfully deleted Google Drive folder for performance: "
               ++ id)%string
     else console Warn
            ("Failed to delete Google Drive folder for performance: "
               ++ id)%string)
    (fun driveError =>
       console Error
         ("Error deleting Google Drive folder for performance " ++ id ++ ":")%string).

Definition deletePerformance (id : string) : M W bool :=
  tryCatch
    (performance <- getPerformanceById id ;;
     match performance with
     | Some p =>
         match Performance.driveFolderId p with
         | Some folderId =>
             if truthy folderId then deleteFolderStep id folderId else ret tt
         | None => ret tt
         end
     | None => ret tt
     end ;;
     r <- await (StoreDelete id) (deleteEq id) ;;
     match error r with
     | Some _ =>
         console Error "Error deleting performance:" ;;
         ret false
     | None => ret true
     end)
    (fun error =>
       console Error "Unexpected error during performance deletion:" ;;
       ret false).
End PerformanceService.


(** ** A reference world

    Modelled from the spec: the Record Store and the Folder Service of spec
    sections 2 and 6 are external systems, not part of the sources.  The store
    is one relational table [performances] with primary key [id]; a request
    that the store cannot serve resolves with an [error] (the client does not
    throw); a filtered [update] or [delete] acts on the rows that match, and
    [.single()] turns a result that is not exactly one row into an error.  The
    Folder Service keeps a set of folder ids.  Faults are scripted: each store
    request and each Folder Service call consumes the next entry of its plan. *)
Module Reference.

Inductive DriveFault : Type :=
| DriveOk
| DriveReturnsNothing
| DriveThrows.

Record World : Type := mkWorld {
  table : list Row.t;
  nextId : nat;
  clock : nat;
  storeFaults : list bool;
  folders : list string;
  nextFolder : nat;
  driveFaults : list DriveFault
}.

Definition decimal (n : nat) : string := NilZero.string_of_uint (Nat.to_uint n).

Definition freshId (w : World) : string := ("perf_" ++ decimal (nextId w))%string.
Definition now (w : World) : string := ("t" ++ decimal (clock w))%string.
Definition freshFolder (w : World) : string :=
  ("fld_" ++ decimal (nextFolder w))%string.

Definition unavailable : PostgrestError := mkPostgrestError "08006" "connection failure".
Definition notSingle : PostgrestError :=
  mkPostgrestError "PGRST116" "JSON object requested, multiple (or no) rows returned".
Definition notNull : PostgrestError :=
  mkPostgrestError "23502" "null value violates not-null constraint".
Definition duplicateKey : PostgrestError :=
  mkPostgrestError "23505" "duplicate key value violates unique constraint".

(** The next store request is scripted to fail. *)
Definition storeFault (w : World) : bool := hd false (storeFaults w).

(** The world once a store request has been received, with a new table. *)
Definition served (w : World) (rows : list Row.t) : World :=
  {| table := rows;
     nextId := nextId w;
     clock := S (clock w);
     storeFaults := tl (storeFaults w);
     folders := folders w;
     nextFolder := nextFolder w;
     driveFaults := driveFaults w |}.

Definition hasId (id : string) (r : Row.t) : bool := String.eqb (Row.id r) id.

(** The rows of [.eq("id", id)]. *)
Definition matching (id : string) (rows : list Row.t) : list Row.t :=
  filter (hasId id) rows.

(** [.single()] *)
Definition single (rows : list Row.t) : Response Row.t :=
  match rows with
  | [r] => success r
  | _ => failure notSingle
  end.

Fixpoint insertDescending (r : Row.t) (rows : list Row.t) : list Row.t :=
  match rows with
  | [] => [r]
  | x :: rest =>
      if String.leb (Row.created_at x) (Row.created_at r)
      then r :: x :: rest
      else x :: insertDescending r rest
  end.

(** [.order("created_at", { ascending: false })] *)
Definition orderDescending (rows : list Row.t) : list Row.t :=
  fold_right insertDescending [] rows.

(** The value a nullable column takes from a payload: its default when the
    key is left out. *)
Definition nullable {A : Type} (c : Column A) (default : option A) : option A :=
  match c with
  | Omitted => default
  | Null => None
  | Value a => Some a
  end.

(** The value a NOT NULL column takes from a payload, or [None] when the
    payload puts [null] there. *)
Definition required (c : Column string) (default : string) : option string :=
  match c with
  | Omitted => Some default
  | Null => None
  | Value a => Some a
  end.

(** The row an insert payload describes; omitted nullable columns default to
    NULL, [id], [created_at] and [updated_at] to store-assigned values. *)
Definition newRow (w : World) (p : RowInsert.t) : option Row.t :=
  match required (RowInsert.id p) (freshId w),
        required (RowInsert.created_at p) (now w),
        required (RowInsert.updated_at p) (now w) with
  | Some i, Some c, Some u =>
      Some {| Row.id := i;
              Row.title := RowInsert.title p;
              Row.description := nullable (RowInsert.description p) None;
              Row.cover_image := nullable (RowInsert.cover_image p) None;
              Row.start_date := nullable (RowInsert.start_date p) None;
              Row.end_date := nullable (RowInsert.end_date p) None;
              Row.tagged_users := nullable (RowInsert.tagged_users p) None;
              Row.created_by := RowInsert.created_by p;
              Row.drive_folder_id := nullable (RowInsert.drive_folder_id p) None;
              Row.created_at := c;
              Row.updated_at := u |}
  | _, _, _ => None
  end.

(** The row after a patch: a column whose key is left out keeps its value. *)
Definition applyPatch (p : RowUpdate.t) (r : Row.t) : option Row.t :=
  match required (RowUpdate.id p) (Row.id r),
        required (RowUpdate.title p) (Row.title r),
        required (RowUpdate.created_by p) (Row.created_by r),
        required (RowUpdate.created_at p) (Row.created_at r),
        required (RowUpdate.updated_at p) (Row.updated_at r) with
  | Some i, Some t, Some b, Some c, Some u =>
      Some {| Row.id := i;
              Row.title := t;
              Row.description :=
                nullable (RowUpdate.description p) (Row.description r);
              Row.cover_image :=
                nullable (RowUpdate.cover_image p) (Row.cover_image r);
              Row.start_date :=
                nullable (RowUpdate.start_date p) (Row.start_date r);
              Row.end_date := nullable (RowUpdate.end_date p) (Row.end_date r);
              Row.tagged_users :=
                nullable (RowUpdate.tagged_users p) (Row.tagged_users r);
              Row.created_by := b;
              Row.drive_folder_id :=
                nullable (RowUpdate.drive_folder_id p) (Row.drive_folder_id r);
              Row.created_at := c;
              Row.updated_at := u |}
  | _, _, _, _, _ => None
  end.

(** The table with the rows that match [id] replaced by [r']. *)
Definition replaceMatching (id : string) (r' : Row.t) (rows : list Row.t)
    : list Row.t :=
  map (fun x => if hasId id x then r' else x) rows.

Definition refSelectOrdered (w : World)
    : Settled (Response (list Row.t)) * World :=
  if storeFault w
  then (Fulfilled (failure unavailable), served w (table w))
  else (Fulfilled (success (orderDescending (table w))), served w (table w)).

Definition refSelectSingle (id : string) (w : World)
    : Settled (Response Row.t) * World :=
  if storeFault w
  then (Fulfilled (failure unavailable), served w (table w))
  else (Fulfilled (single (matching id (table w))), served w (table w)).

Definition refInsertSingle (p : RowInsert.t) (w : World)
    : Settled (Response Row.t) * World :=
  if storeFault w
  then (Fulfilled (failure unavailable), served w (table w))
  else
    match newRow w p with
    | None => (Fulfilled (failure notNull), served w (table w))
    | Some r =>
        match matching (Row.id r) (table w) with
        | [] =>
            (Fulfilled (success r),
             {| table := table w ++ [r];
                nextId := S (nextId w);
                clock := S (clock w);
                storeFaults := tl (storeFaults w);
                folders := folders w;
                nextFolder := nextFolder w;
                driveFaults := driveFaults w |})
        | _ :: _ => (Fulfilled (failure duplicateKey), served w (table w))
        end
    end.

Definition refUpdateSingle (p : RowUpdate.t) (id : string) (w : World)
    : Settled (Response Row.t) * World :=
  if storeFault w
  then (Fulfilled (failure unavailable), served w (table w))
  else
    match matching id (table w) with
    | [r] =>
        match applyPatch p r with
        | None => (Fulfilled (failure notNull), served w (table w))
        | Some r' =>
            if negb (hasId id r') && existsb (hasId (Row.id r')) (table w)
            then (Fulfilled (failure duplicateKey), served w (table w))
            else (Fulfilled (success r'),
                  served w (replaceMatching id r' (table w)))
        end
    | _ => (Fulfilled (failure notSingle), served w (table w))
    end.

Definition refDeleteEq (id : string) (w : World)
    : Settled (Response unit) * World :=
  if storeFault w
  then (Fulfilled (failure unavailable), served w (table w))
  else (Fulfilled (mkResponse None None),
        served w (filter (fun r => negb (hasId id r)) (table w))).

(** The world once a Folder Service call has been received. *)
Definition driveServed (w : World) (fs : list string) (next : nat) : World :=
  {| table := table w;
     nextId := nextId w;
     clock := clock w;
     storeFaults := storeFaults w;
     folders := fs;
     nextFolder := next;
     driveFaults := tl (driveFaults w) |}.

Definition driveFault (w : World) : DriveFault := hd DriveOk (driveFaults w).

Definition refCreatePerformanceFolder (name : string) (w : World)
    : Settled (option string) * World :=
  match driveFault w with
  | DriveOk =>
      (Fulfilled (Some (freshFolder w)),
       driveServed w (folders w ++ [freshFolder w]) (S (nextFolder w)))
  | DriveReturnsNothing =>
      (Fulfilled None, driveServed w (folders w) (nextFolder w))
  | DriveThrows =>
      (Rejected (ThrownError "Drive API request failed"),
       driveServed w (folders w) (nextFolder w))
  end.

Definition refDeleteFolder (folderId : string) (w : World)
    : Settled bool * World :=
  match driveFault w with
  | DriveOk =>
      (Fulfilled (existsb (String.eqb folderId) (folders w)),
       driveServed w
         (filter (fun f => negb (String.eqb folderId f)) (folders w))
         (nextFolder w))
  | DriveReturnsNothing =>
      (Fulfilled false, driveServed w (folders w) (nextFolder w))
  | DriveThrows =>
      (Rejected (ThrownError "Drive API request failed"),
       driveServed w (folders w) (nextFolder w))
  end.

#[global] Instance supabase : SupabaseClient World := {
  selectOrdered := refSelectOrdered;
  selectSingle := refSelectSingle;
  insertSingle := refInsertSingle;
  updateSingle := refUpdateSingle;
  deleteEq := refDeleteEq
}.

#[global] Instance googleDriveService : GoogleDriveService World := {
  createPerformanceFolder := refCreatePerformanceFolder;
  deleteFolder := refDeleteFolder
}.

(** An empty store and Folder Service, with scripted faults. *)
Definition initial (sf : list bool) (df : list DriveFault) : World :=
  mkWorld [] 1 1 sf [] 1 df.

End Reference.

(** ** A scripted world

    A test double for both collaborators: each call settles with the outcome
    written in the world, which stays as it is.  It can script what the
    reference world cannot: a rejected store request, a response with neither
    [data] nor [error], a folder id that is the empty string. *)
Module Scripted.

Record World : Type := mkWorld {
  onSelectOrdered : Settled (Response (list Row.t));
  onSelectSingle : Settled (Response Row.t);
  onInsertSingle : Settled (Response Row.t);
  onUpdateSingle : Settled (Response Row.t);
  onDeleteEq : Settled (Response unit);
  onCreatePerformanceFolder : Settled (option string);
  onDeleteFolder : Settled bool
}.

#[global] Instance supabase : SupabaseClient World := {
  selectOrdered := fun w => (onSelectOrdered w, w);
  selectSingle := fun _ w => (onSelectSingle w, w);
  insertSingle := fun _ w => (onInsertSingle w, w);
  updateSingle := fun _ _ w => (onUpdateSingle w, w);
  deleteEq := fun _ w => (onDeleteEq w, w)
}.

#[global] Instance googleDriveService : GoogleDriveService World := {
  createPerformanceFolder := fun _ w => (onCreatePerformanceFolder w, w);
  deleteFolder := fun _ w => (onDeleteFolder w, w)
}.

Definition networkDown : JsError := ThrownError "fetch failed".

(** Every call rejects. *)
Definition offline : World :=
  mkWorld (Rejected networkDown) (Rejected networkDown) (Rejected networkDown)
    (Rejected networkDown) (Rejected networkDown) (Rejected networkDown)
    (Rejected networkDown).

End Scripted.

(** ** Vocabulary of the statements *)

(** The record a row is exposed as: the object literal that the four methods
    build from a row of the store. *)
Definition toPerformance (row : Row.t) : Performance.t :=
  {| Performance.id := Row.id row;
     Performance.title := Row.title row;
     Performance.description := orUndefined (Row.description row);
     Performance.coverImage := orUndefined (Row.cover_image row);
     Performance.startDate := orUndefined (Row.start_date row);
     Performance.endDate := orUndefined (Row.end_date row);
     Performance.createdAt := Row.created_at row;
     Performance.updatedAt := Row.updated_at row;
     Performance.createdBy := Row.created_by row;
     Performance.taggedUsers := orEmptyArray (Row.tagged_users row);
     Performance.driveFolderId := orUndefined (Row.drive_folder_id row) |}.

(** The folder id a settled [createPerformanceFolder] call leaves in the local
    [driveFolderId]: the fulfilled value, [null] after a rejection. *)
Definition folderIdOf (r : Settled (option string)) : option string :=
  match r with
  | Fulfilled x => x
  | Rejected _ => None
  end.

(** Folder creation failed: the call threw or returned no folder id. *)
Definition folderCreationFailed (r : Settled (option string)) : bool :=
  match r with
  | Fulfilled (Some _) => false
  | Fulfilled None => true
  | Rejected _ => true
  end.

(** A store request failed: it resolved with an [error], or it rejected. *)
Definition failed {A : Type} (r : Settled (Response A)) : bool :=
  match r with
  | Fulfilled resp =>
      match error resp with
      | Some _ => true
      | None => false
      end
  | Rejected _ => true
  end.

(** A lookup found no record: it resolved with an [error] or without [data]. *)
Definition absent {A : Type} (resp : Response A) : bool :=
  match error resp, data resp with
  | None, Some _ => false
  | _, _ => true
  end.

(** What a settled insert makes [createPerformance] return: the record of the
    returned row, or [null] when the insert failed or returned no row. *)
Definition inserted (r : Settled (Response Row.t)) : option Performance.t :=
  match r with
  | Fulfilled resp =>
      match error resp, data resp with
      | None, Some row => Some (toPerformance row)
      | _, _ => None
      end
  | Rejected _ => None
  end.

(** An optional input string as the returned record shows it: an omitted or
    empty value is absent. *)
Definition shown (x : option string) : option string :=
  match x with
  | Some EmptyString => None
  | Some s => Some s
  | None => None
  end.

(** The row stores what the insert payload says: every column the payload
    gives has the payload's value, and an omitted nullable column is NULL. *)
Definition stores (p : RowInsert.t) (row : Row.t) : Prop :=
  Row.title row = RowInsert.title p
  /\ Row.created_by row = RowInsert.created_by p
  /\ Row.description row = Reference.nullable (RowInsert.description p) None
  /\ Row.cover_image row = Reference.nullable (RowInsert.cover_image p) None
  /\ Row.start_date row = Reference.nullable (RowInsert.start_date p) None
  /\ Row.end_date row = Reference.nullable (RowInsert.end_date p) None
  /\ Row.tagged_users row = Reference.nullable (RowInsert.tagged_users p) None
  /\ Row.drive_folder_id row
     = Reference.nullable (RowInsert.drive_folder_id p) None.

(** A store value [x] that is the empty string or NULL is exposed as absent. *)
Definition blankIsAbsent (x y : option string) : Prop :=
  (x = Some "" \/ x = None) -> y = None.

(** The claim on exposed records: empty strings and NULLs of the optional
    columns are exposed as absent, a NULL [tagged_users] as the empty list. *)
Definition exposes (row : Row.t) (p : Performance.t) : Prop :=
  blankIsAbsent (Row.description row) (Performance.description p)
  /\ blankIsAbsent (Row.cover_image row) (Performance.coverImage p)
  /\ blankIsAbsent (Row.start_date row) (Performance.startDate p)
  /\ blankIsAbsent (Row.end_date row) (Performance.endDate p)
  /\ blankIsAbsent (Row.drive_folder_id row) (Performance.driveFolderId p)
  /\ (Row.tagged_users row = None -> Performance.taggedUsers p = []).

(** A required column after a partial update: the input's value when the
    input has one, the old value otherwise. *)
Definition orKeep {A : Type} (new : option A) (old : A) : A :=
  match new with
  | Some v => v
  | None => old
  end.

(** A nullable column after a partial update. *)
Definition orKeepNullable {A : Type} (new : option A) (old : option A)
    : option A :=
  match new with
  | Some v => Some v
  | None => old
  end.

(** In the reference world: the [n]-th store request from now (counting from
    0) is scripted to fail. *)
Definition storeFaultAt (n : nat) (w : Reference.World) : bool :=
  nth n (Reference.storeFaults w) false.

(** Every row keeps its value of column [f] from world [w] to world [w']. *)
Definition sameColumn {B : Type} (f : Row.t -> B) (w w' : Reference.World)
    : Prop :=
  map f (Reference.table w') = map f (Reference.table w).

(** The rows whose id is not [id] are the same in [w] and [w']. *)
Definition othersUntouched (id : string) (w w' : Reference.World) : Prop :=
  filter (fun r => negb (Reference.hasId id r)) (Reference.table w')
  = filter (fun r => negb (Reference.hasId id r)) (Reference.table w).

(** Row [r'] is row [r] with exactly the fields present in the update input
    replaced by the input's values. *)
Definition patchedBy (performanceData : UpdatePerformanceData.t)
    (r r' : Row.t) : Prop :=
  Row.id r' = Row.id r
  /\ Row.title r'
     = orKeep (UpdatePerformanceData.title performanceData) (Row.title r)
  /\ Row.description r'
     = orKeepNullable (UpdatePerformanceData.description performanceData)
         (Row.description r)
  /\ Row.cover_image r'
     = orKeepNullable (UpdatePerformanceData.coverImage performanceData)
         (Row.cover_image r)
  /\ Row.start_date r'
     = orKeepNullable (UpdatePerformanceData.startDate performanceData)
         (Row.start_date r)
  /\ Row.end_date r'
     = orKeepNullable (UpdatePerformanceData.endDate performanceData)
         (Row.end_date r)
  /\ Row.tagged_users r'
     = orKeepNullable (UpdatePerformanceData.taggedUsers performanceData)
         (Row.tagged_users r)
  /\ Row.created_by r' = Row.created_by r
  /\ Row.drive_folder_id r' = Row.drive_folder_id r
  /\ Row.created_at r' = Row.created_at r.

(** What a lookup response makes [getPerformanceById] return: the record of
    the row, or [null] when the response carries an error or no row. *)
Definition recordOf (r : Response Row.t) : option Performance.t :=
  match error r, data r with
  | None, Some row => Some (toPerformance row)
  | _, _ => None
  end.

(** The folder id [deletePerformance] acts on after a lookup response: the
    truthy [driveFolderId] of the record found, if any. *)
Definition linkedFolder (r : Response Row.t) : option string :=
  match recordOf r with
  | Some p =>
      match Performance.driveFolderId p with
      | Some folderId => if truthy folderId then Some folderId else None
      | None => None
      end
  | None => None
  end.

(** The value thrown by a property access on [null]. *)
Definition nullError : JsError := TypeError "Cannot read properties of null".


(** The reference store serves its next [n] requests without a fault. *)
Definition storeUp (n : nat) (w : Reference.World) : Prop :=
  forall k, k < n -> storeFaultAt k w = false.

(** ** Sample inputs *)

Definition winterConcert : CreatePerformanceData.t :=
  CreatePerformanceData.mk "Winter Concert" None None None None None "u1".

(** A create input whose description is the empty string. *)
Definition springGala : CreatePerformanceData.t :=
  CreatePerformanceData.mk "Spring Gala" (Some "") None None None
    (Some ["u2"; "u3"]) "u1".

(** A store holding one performance that is linked to folder [fld_1]. *)
Definition oneRow : Row.t :=
  {| Row.id := "perf_1";
     Row.title := "Winter Concert";
     Row.description := Some "";
     Row.cover_image := None;
     Row.start_date := Some "2025-12-01";
     Row.end_date := None;
     Row.tagged_users := None;
     Row.created_by := "u1";
     Row.drive_folder_id := Some "fld_1";
     Row.created_at := "t1";
     Row.updated_at := "t1" |}.

(** An update that renames [perf_1] and tries to hand it to another user. *)
Definition renameAndReassign : UpdatePerformanceData.t :=
  UpdatePerformanceData.mk (Some "Winter Gala") None None None None None
    (Some "u9") "perf_1".

Definition oneRowWorld (sf : list bool) (df : list Reference.DriveFault)
    : Reference.World :=
  Reference.mkWorld [oneRow] 2 2 sf ["fld_1"] 2 df.

(** A row that is linked to no folder. *)
Definition plainRow : Row.t :=
  {| Row.id := "perf_2";
     Row.title := "Open Rehearsal";
     Row.description := Some "Bring scores";
     Row.cover_image := None;
     Row.start_date := None;
     Row.end_date := None;
     Row.tagged_users := Some ["u2"];
     Row.created_by := "u1";
     Row.drive_folder_id := None;
     Row.created_at := "t2";
     Row.updated_at := "t2" |}.

(** A store holding [oneRow] and [plainRow]. *)
Definition twoRowWorld (sf : list bool) (df : list Reference.DriveFault)
    : Reference.World :=
  Reference.mkWorld [oneRow; plainRow] 3 3 sf ["fld_1"] 2 df.

(** A scripted world in which the store answers with [plainRow] and the
    Folder Service hands back the empty string as folder id. *)
Definition emptyFolderId : Scripted.World :=
  Scripted.mkWorld (Fulfilled (success [plainRow])) (Fulfilled (success plainRow))
    (Fulfilled (success plainRow)) (Fulfilled (success plainRow))
    (Fulfilled (mkResponse None None)) (Fulfilled (Some ""))
    (Fulfilled true).

(** A scripted world whose store resolves every request with neither data
    nor error. *)
Definition emptyResponses : Scripted.World :=
  Scripted.mkWorld (Fulfilled (mkResponse None None))
    (Fulfilled (mkResponse None None)) (Fulfilled (mkResponse None None))
    (Fulfilled (mkResponse None None)) (Fulfilled (mkResponse None None))
    (Fulfilled None) (Fulfilled false).

(** * Properties *)

(** ** Running the methods against any store and Folder Service *)

Section Runs.
Context {W : Type} {supabase : SupabaseClient W}
        {googleDriveService : GoogleDriveService W}.

Lemma createFolderStep_run (performanceData : CreatePerformanceData.t)
    (w w1 : W) (rf : Settled (option string)) :
  createPerformanceFolder (CreatePerformanceData.title performanceData) w
    = (rf, w1) ->
  exists evs,
    createFolderStep performanceData w = (Fulfilled (folderIdOf rf), w1, evs)
    /\ calls evs
       = [DriveCreateFolder (CreatePerformanceData.title performanceData)].
Proof.
  intros Hf. unfold createFolderStep, tryCatch, bind, await, console, ret.
  rewrite Hf. destruct rf as [[folderId|]|e]; cbn.
  - destruct (truthy folderId); cbn; eexists; split; reflexivity.
  - eexists; split; reflexivity.
  - eexists; split; reflexivity.
Qed.

Lemma createPerformance_run (performanceData : CreatePerformanceData.t)
    (w w1 w2 : W) (rf : Settled (option string))
    (ri : Settled (Response Row.t)) :
  createPerformanceFolder (CreatePerformanceData.title performanceData) w
    = (rf, w1) ->
  insertSingle (insertRow performanceData (folderIdOf rf)) w1 = (ri, w2) ->
  exists evs,
    createPerformance performanceData w = (Fulfilled (inserted ri), w2, evs)
    /\ calls evs
       = [DriveCreateFolder (CreatePerformanceData.title performanceData);
          StoreInsert (insertRow performanceData (folderIdOf rf))].
Proof.
  intros Hf Hi.
  destruct (createFolderStep_run performanceData w Hf) as (evs & Hstep & Hcalls).
  unfold createPerformance, tryCatch, bind.
  cbn [console]. rewrite Hstep. unfold await. rewrite Hi.
  unfold calls in *.
  destruct ri as [[[row|] [e|]]|e]; cbn;
    (eexists; split; [reflexivity|]);
    cbn; rewrite ?filter_app, Hcalls; reflexivity.
Qed.

Lemma getPerformanceById_found (id : string) (w w1 : W) (row : Row.t) :
  selectSingle id w = (Fulfilled (success row), w1) ->
  exists evs,
    getPerformanceById id w = (Fulfilled (Some (toPerformance row)), w1, evs)
    /\ calls evs = [StoreSelectById id].
Proof.
  intros Hs. unfold getPerformanceById, bind, await, console.
  rewrite Hs. cbn. eexists; split; reflexivity.
Qed.

Lemma getPerformanceById_absent (id : string) (w w1 : W)
    (r : Response Row.t) :
  selectSingle id w = (Fulfilled r, w1) ->
  absent r = true ->
  exists evs,
    getPerformanceById id w = (Fulfilled None, w1, evs)
    /\ calls evs = [StoreSelectById id].
Proof.
  intros Hs Ha. unfold getPerformanceById, bind, await, console.
  rewrite Hs. destruct r as [[row|] [e|]]; try discriminate Ha; cbn;
    eexists; split; reflexivity.
Qed.

Lemma deleteFolderStep_run (id folderId : string) (w w1 : W)
    (rf : Settled bool) :
  deleteFolder folderId w = (rf, w1) ->
  exists evs,
    deleteFolderStep id folderId w = (Fulfilled tt, w1, evs)
    /\ calls evs = [DriveDeleteFolder folderId].
Proof.
  intros Hd. unfold deleteFolderStep, tryCatch, bind, await, console.
  rewrite Hd. destruct rf as [[|]|e]; cbn; eexists; split; reflexivity.
Qed.

(** [deletePerformance] when the lookup finds no record: the folder step is
    passed over and the store delete decides the result. *)
Lemma deletePerformance_lookup_absent (id : string) (w w1 w2 : W)
    (r : Response Row.t) (rd : Settled (Response unit)) :
  selectSingle id w = (Fulfilled r, w1) ->
  absent r = true ->
  deleteEq id w1 = (rd, w2) ->
  exists evs,
    deletePerformance id w = (Fulfilled (negb (failed rd)), w2, evs)
    /\ calls evs = [StoreSelectById id; StoreDelete id].
Proof.
  intros Hs Ha Hd.
  destruct (getPerformanceById_absent id w Hs Ha) as (evs & Hget & Hcalls).
  unfold deletePerformance, tryCatch, bind.
  rewrite Hget. cbn [ret]. unfold await. rewrite Hd.
  unfold calls in *.
  destruct rd as [[d [e|]]|e]; cbn;
    (eexists; split; [reflexivity|]);
    cbn; rewrite ?filter_app, Hcalls; reflexivity.
Qed.

Lemma driveCalls_of_calls (evs : list Event) :
  driveCalls evs = filter isDriveCall (calls evs).
Proof.
  unfold driveCalls, calls. induction evs as [|e evs IH]; [reflexivity|].
  destruct e; cbn; rewrite ?IH; reflexivity.
Qed.

Lemma shown_orUndefined (x : option string) : orUndefined x = shown x.
Proof. destruct x as [[|c s]|]; reflexivity. Qed.

Lemma exposes_toPerformance (row : Row.t) : exposes row (toPerformance row).
Proof.
  unfold exposes, blankIsAbsent, toPerformance; cbn.
  repeat split; intros H; try (destruct H as [H|H]); rewrite H; reflexivity.
Qed.

End Runs.

(** ** Properties that hold for every store and Folder Service *)

Section AnyWorld.
Context {W : Type} {supabase : SupabaseClient W}
        {googleDriveService : GoogleDriveService W}.

(** C8: if the read behind [getPerformances] fails (the store resolves the
    query with an error), [getPerformances] fulfils with the empty list: it
    does not throw, makes no other call, and reports the failure with one
    [console.error]. *)
Theorem getPerformances_read_failure (w w1 : W)
    (r : Response (list Row.t)) :
  selectOrdered w = (Fulfilled r, w1) ->
  failed (Fulfilled r) = true ->
  getPerformances w
  = (Fulfilled [], w1,
     [StoreSelectAll; Console Error "Error fetching performances:"]).
Proof.
  intros Hs Hf. unfold getPerformances, bind, await. rewrite Hs.
  destruct r as [d [e|]]; [reflexivity | discriminate Hf].
Qed.

(** C1: when [createPerformanceFolder] throws or returns no folder id,
    [createPerformance] does not throw; it makes exactly the folder call and
    then the insert, whose payload carries [drive_folder_id: null]; the insert
    runs in the world the folder call left, and what is returned is decided by
    the insert alone: the record of the returned row when the insert
    succeeds. *)
Theorem createPerformance_folder_failure_is_not_fatal
    (performanceData : CreatePerformanceData.t) (w w1 w2 : W)
    (rf : Settled (option string)) (ri : Settled (Response Row.t)) :
  createPerformanceFolder (CreatePerformanceData.title performanceData) w
    = (rf, w1) ->
  folderCreationFailed rf = true ->
  insertSingle (insertRow performanceData None) w1 = (ri, w2) ->
  exists evs,
    createPerformance performanceData w = (Fulfilled (inserted ri), w2, evs)
    /\ calls evs
       = [DriveCreateFolder (CreatePerformanceData.title performanceData);
          StoreInsert (insertRow performanceData None)]
    /\ RowInsert.drive_folder_id (insertRow performanceData None) = Null
    /\ (forall row, ri = Fulfilled (success row) ->
        inserted ri = Some (toPerformance row)).
Proof.
  intros Hf Hfail Hi.
  assert (Hid : folderIdOf rf = None).
  { destruct rf as [[folderId|]|e]; [discriminate Hfail | reflexivity..]. }
  rewrite <- Hid in Hi.
  destruct (createPerformance_run performanceData w Hf Hi) as (evs & Hrun & Hc).
  rewrite Hid in Hc.
  exists evs. repeat split; try assumption.
  intros row ->. reflexivity.
Qed.

(** C3: when the store insert of [createPerformance] fails, the operation
    fulfils with [null]; the only Folder Service call of the whole run is the
    [createPerformanceFolder] of step 1, and the run ends in the world the
    failed insert left: nothing is undone. *)
Theorem createPerformance_insert_failure_no_rollback
    (performanceData : CreatePerformanceData.t) (w w1 w2 : W)
    (rf : Settled (option string)) (ri : Settled (Response Row.t)) :
  createPerformanceFolder (CreatePerformanceData.title performanceData) w
    = (rf, w1) ->
  insertSingle (insertRow performanceData (folderIdOf rf)) w1 = (ri, w2) ->
  failed ri = true ->
  exists evs,
    createPerformance performanceData w = (Fulfilled None, w2, evs)
    /\ driveCalls evs
       = [DriveCreateFolder (CreatePerformanceData.title performanceData)]
    /\ calls evs
       = [DriveCreateFolder (CreatePerformanceData.title performanceData);
          StoreInsert (insertRow performanceData (folderIdOf rf))].
Proof.
  intros Hf Hi Hfail.
  destruct (createPerformance_run performanceData w Hf Hi) as (evs & Hrun & Hc).
  exists evs. split; [|split; [|exact Hc]].
  - rewrite Hrun. destruct ri as [[d [e|]]|e]; [reflexivity | | reflexivity].
    discriminate Hfail.
  - rewrite driveCalls_of_calls, Hc. reflexivity.
Qed.

(** C2: for a record that has a [driveFolderId], whatever the
    [deleteFolder] call does (true, false or a throw), [deletePerformance]
    goes on to the store delete of the row, does not throw, and returns true
    exactly when that store delete did not fail. *)
Theorem deletePerformance_folder_outcome_never_blocks
    (id folderId : string) (w w1 w2 w3 : W) (row : Row.t)
    (rf : Settled bool) (rd : Settled (Response unit)) :
  selectSingle id w = (Fulfilled (success row), w1) ->
  Row.drive_folder_id row = Some folderId ->
  truthy folderId = true ->
  deleteFolder folderId w1 = (rf, w2) ->
  deleteEq id w2 = (rd, w3) ->
  exists evs,
    deletePerformance id w = (Fulfilled (negb (failed rd)), w3, evs)
    /\ calls evs
       = [StoreSelectById id; DriveDeleteFolder folderId; StoreDelete id].
Proof.
  intros Hs Hrow Ht Hf Hd.
  destruct (getPerformanceById_found id w Hs) as (evs & Hget & Hcalls).
  destruct (deleteFolderStep_run id folderId w1 Hf) as (evs' & Hstep & Hcalls').
  unfold deletePerformance, tryCatch, bind.
  rewrite Hget. cbn [toPerformance Performance.driveFolderId].
  rewrite Hrow. cbn [orUndefined]. rewrite Ht, Ht, Hstep.
  unfold await. rewrite Hd.
  unfold calls in *.
  destruct rd as [[d [e|]]|e]; cbn;
    (eexists; split; [reflexivity|]);
    cbn; rewrite ?filter_app, Hcalls, Hcalls'; reflexivity.
Qed.

(** C4: when the lookup of [deletePerformance] resolves with an error or
    with no row, no Folder Service call is made and the store delete of the
    row by id is still made. *)
Theorem deletePerformance_lookup_failure_still_deletes
    (id : string) (w w1 w2 : W) (r : Response Row.t)
    (rd : Settled (Response unit)) :
  selectSingle id w = (Fulfilled r, w1) ->
  absent r = true ->
  deleteEq id w1 = (rd, w2) ->
  exists evs,
    deletePerformance id w = (Fulfilled (negb (failed rd)), w2, evs)
    /\ calls evs = [StoreSelectById id; StoreDelete id]
    /\ driveCalls evs = [].
Proof.
  intros Hs Ha Hd.
  destruct (deletePerformance_lookup_absent id w Hs Ha Hd) as (evs & Hrun & Hc).
  exists evs. repeat split; try assumption.
  rewrite driveCalls_of_calls, Hc. reflexivity.
Qed.

(** C7, as amended: when the insert succeeds and the returned row stores the
    payload, the returned record has the input's title; each of description,
    coverImage, startDate and endDate is the input's value when that is a
    non-empty string and absent when the input omits it or gives the empty
    string; taggedUsers is the input's list, or the empty list when omitted;
    id, createdAt and updatedAt are those of the row the store returned, the
    payload leaving all three out. *)
Theorem createPerformance_returns_input_fields
    (performanceData : CreatePerformanceData.t) (w w1 w2 : W)
    (rf : Settled (option string)) (row : Row.t) :
  createPerformanceFolder (CreatePerformanceData.title performanceData) w
    = (rf, w1) ->
  insertSingle (insertRow performanceData (folderIdOf rf)) w1
    = (Fulfilled (success row), w2) ->
  stores (insertRow performanceData (folderIdOf rf)) row ->
  exists p evs,
    createPerformance performanceData w = (Fulfilled (Some p), w2, evs)
    /\ Performance.title p = CreatePerformanceData.title performanceData
    /\ Performance.description p
       = shown (CreatePerformanceData.description performanceData)
    /\ Performance.coverImage p
       = shown (CreatePerformanceData.coverImage performanceData)
    /\ Performance.startDate p
       = shown (CreatePerformanceData.startDate performanceData)
    /\ Performance.endDate p
       = shown (CreatePerformanceData.endDate performanceData)
    /\ Performance.taggedUsers p
       = orEmptyArray (CreatePerformanceData.taggedUsers performanceData)
    /\ Performance.id p = Row.id row
    /\ Performance.createdAt p = Row.created_at row
    /\ Performance.updatedAt p = Row.updated_at row
    /\ RowInsert.id (insertRow performanceData (folderIdOf rf)) = Omitted
    /\ RowInsert.created_at (insertRow performanceData (folderIdOf rf)) = Omitted
    /\ RowInsert.updated_at (insertRow performanceData (folderIdOf rf)) = Omitted.
Proof.
  intros Hf Hi (Ht & _ & Hd & Hc & Hs & He & Hu & _).
  destruct (createPerformance_run performanceData w Hf Hi) as (evs & Hrun & _).
  exists (toPerformance row), evs. split; [exact Hrun|].
  cbn [toPerformance Performance.title Performance.description
       Performance.coverImage Performance.startDate Performance.endDate
       Performance.taggedUsers Performance.id Performance.createdAt
       Performance.updatedAt].
  rewrite Ht, Hd, Hc, Hs, He, Hu, !shown_orUndefined. cbn.
  destruct performanceData as [t d c s e u b]; cbn.
  repeat split; try reflexivity.
  - destruct d; reflexivity.
  - destruct c; reflexivity.
  - destruct s; reflexivity.
  - destruct e; reflexivity.
  - destruct u; reflexivity.
Qed.

(** C10: in the record(s) each of the four methods returns for the row(s)
    the store returned, an empty-string or NULL description, cover_image,
    start_date, end_date or drive_folder_id is absent, and a NULL tagged_users
    is the empty list. *)
Theorem returned_records_hide_blank_columns :
  (forall (w w1 : W) (rows : list Row.t),
      selectOrdered w = (Fulfilled (success rows), w1) ->
      exists ps,
        outcome (getPerformances w) = Fulfilled ps
        /\ Forall2 exposes rows ps)
  /\ (forall (id : string) (w w1 : W) (row : Row.t),
      selectSingle id w = (Fulfilled (success row), w1) ->
      exists p,
        outcome (getPerformanceById id w) = Fulfilled (Some p)
        /\ exposes row p)
  /\ (forall (performanceData : CreatePerformanceData.t) (w w1 w2 : W)
        (rf : Settled (option string)) (row : Row.t),
      createPerformanceFolder (CreatePerformanceData.title performanceData) w
        = (rf, w1) ->
      insertSingle (insertRow performanceData (folderIdOf rf)) w1
        = (Fulfilled (success row), w2) ->
      exists p,
        outcome (createPerformance performanceData w) = Fulfilled (Some p)
        /\ exposes row p)
  /\ (forall (performanceData : UpdatePerformanceData.t) (w w1 : W)
        (row : Row.t),
      updateSingle (updateData performanceData)
        (UpdatePerformanceData.id performanceData) w
        = (Fulfilled (success row), w1) ->
      exists p,
        outcome (updatePerformance performanceData w) = Fulfilled (Some p)
        /\ exposes row p).
Proof.
  repeat split.
  - intros w w1 rows Hs. unfold getPerformances, bind, await. rewrite Hs. cbn.
    eexists; split; [reflexivity|]. clear Hs.
    induction rows as [|row rows IH]; cbn; constructor.
    + apply (exposes_toPerformance row).
    + apply IH.
  - intros id w w1 row Hs.
    destruct (getPerformanceById_found id w Hs) as (evs & Hrun & _).
    exists (toPerformance row). rewrite Hrun. split; [reflexivity|].
    apply exposes_toPerformance.
  - intros performanceData w w1 w2 rf row Hf Hi.
    destruct (createPerformance_run performanceData w Hf Hi) as (evs & Hrun & _).
    exists (toPerformance row). rewrite Hrun. split; [reflexivity|].
    apply exposes_toPerformance.
  - intros performanceData w w1 row Hu.
    unfold updatePerformance, bind, await. rewrite Hu. cbn.
    eexists; split; [reflexivity|]. apply (exposes_toPerformance row).
Qed.

End AnyWorld.

(** ** Properties of the reference store *)

Section ReferenceStore.
Import Reference.

Lemma filter_none_keeps_rest {A : Type} (f : A -> bool) (l : list A) :
  filter f l = [] -> filter (fun x => negb (f x)) l = l.
Proof.
  induction l as [|x l IH]; cbn; [reflexivity|].
  destruct (f x); cbn; [discriminate|].
  intros H. rewrite (IH H). reflexivity.
Qed.

Lemma matching_single (id : string) (t : list Row.t) (r x : Row.t) :
  matching id t = [r] -> In x t -> hasId id x = true -> x = r.
Proof.
  intros Hm Hin Hx.
  assert (Hf : In x (matching id t)).
  { unfold matching. apply filter_In. split; assumption. }
  rewrite Hm in Hf. destruct Hf as [Hf|[]]. symmetry; exact Hf.
Qed.

Lemma matching_single_hasId (id : string) (t : list Row.t) (r : Row.t) :
  matching id t = [r] -> hasId id r = true.
Proof.
  intros Hm.
  assert (Hf : In r (matching id t)) by (rewrite Hm; left; reflexivity).
  unfold matching in Hf. apply filter_In in Hf. apply Hf.
Qed.

Lemma replaceMatching_column {B : Type} (f : Row.t -> B) (id : string)
    (t : list Row.t) (r r' : Row.t) :
  matching id t = [r] -> f r' = f r ->
  map f (replaceMatching id r' t) = map f t.
Proof.
  intros Hm Hf. unfold replaceMatching. rewrite map_map.
  apply map_ext_in. intros x Hin.
  destruct (hasId id x) eqn:Hx; [|reflexivity].
  rewrite (@matching_single id t r x Hm Hin Hx). exact Hf.
Qed.

Lemma replaceMatching_matching (id : string) (t : list Row.t) (r' : Row.t) :
  hasId id r' = true ->
  matching id (replaceMatching id r' t) = map (fun _ => r') (matching id t).
Proof.
  intros Hr. unfold matching, replaceMatching.
  induction t as [|x t IH]; cbn; [reflexivity|].
  destruct (hasId id x) eqn:Hx; cbn.
  - rewrite Hr, IH. reflexivity.
  - rewrite Hx. exact IH.
Qed.

Lemma replaceMatching_others (id : string) (t : list Row.t) (r' : Row.t) :
  hasId id r' = true ->
  filter (fun x => negb (hasId id x)) (replaceMatching id r' t)
  = filter (fun x => negb (hasId id x)) t.
Proof.
  intros Hr. unfold replaceMatching.
  induction t as [|x t IH]; cbn; [reflexivity|].
  destruct (hasId id x) eqn:Hx; cbn.
  - rewrite Hr. cbn. exact IH.
  - rewrite Hx. cbn. rewrite IH. reflexivity.
Qed.

(** The patch of [updatePerformance] applied to a row. *)
Lemma applyPatch_updateData (performanceData : UpdatePerformanceData.t)
    (r : Row.t) :
  applyPatch (updateData performanceData) r
  = Some
      {| Row.id := Row.id r;
         Row.title := orKeep (UpdatePerformanceData.title performanceData)
                             (Row.title r);
         Row.description :=
           orKeepNullable (UpdatePerformanceData.description performanceData)
                          (Row.description r);
         Row.cover_image :=
           orKeepNullable (UpdatePerformanceData.coverImage performanceData)
                          (Row.cover_image r);
         Row.start_date :=
           orKeepNullable (UpdatePerformanceData.startDate performanceData)
                          (Row.start_date r);
         Row.end_date :=
           orKeepNullable (UpdatePerformanceData.endDate performanceData)
                          (Row.end_date r);
         Row.tagged_users :=
           orKeepNullable (UpdatePerformanceData.taggedUsers performanceData)
                          (Row.tagged_users r);
         Row.created_by := Row.created_by r;
         Row.drive_folder_id := Row.drive_folder_id r;
         Row.created_at := Row.created_at r;
         Row.updated_at := Row.updated_at r |}.
Proof.
  destruct performanceData as [t d c s e u b i].
  destruct t, d, c, s, e, u; reflexivity.
Qed.

(** How [updatePerformance] runs against the reference store: either the
    request fails or matches no single row, and the table is as it was; or it
    matches one row, which the patch replaces. *)
Lemma updatePerformance_reference_run
    (performanceData : UpdatePerformanceData.t) (w : World) :
  exists res w' evs,
    updatePerformance performanceData w = (Fulfilled res, w', evs)
    /\ calls evs
       = [StoreUpdate (updateData performanceData)
            (UpdatePerformanceData.id performanceData)]
    /\ ((res = None /\ table w' = table w
         /\ (storeFault w = true
             \/ forall r, matching (UpdatePerformanceData.id performanceData)
                            (table w) <> [r]))
        \/ (exists r r',
              storeFault w = false
              /\ matching (UpdatePerformanceData.id performanceData) (table w)
                 = [r]
              /\ applyPatch (updateData performanceData) r = Some r'
              /\ hasId (UpdatePerformanceData.id performanceData) r' = true
              /\ res = Some (toPerformance r')
              /\ table w'
                 = replaceMatching (UpdatePerformanceData.id performanceData)
                     r' (table w))).
Proof.
  unfold updatePerformance, bind, await.
  cbn [updateSingle supabase]. unfold refUpdateSingle.
  destruct (storeFault w) eqn:Hfault.
  { cbn. do 3 eexists. split; [reflexivity|]. split; [reflexivity|].
    left. repeat split. left. reflexivity. }
  destruct (matching (UpdatePerformanceData.id performanceData) (table w))
    as [|r [|r2 rest]] eqn:Hm.
  - cbn. do 3 eexists. split; [reflexivity|]. split; [reflexivity|].
    left. repeat split. right. intros r; discriminate.
  - rewrite applyPatch_updateData.
    assert (Hid : hasId (UpdatePerformanceData.id performanceData) r = true)
      by (apply (@matching_single_hasId _ _ _ Hm)).
    match goal with
    | |- context [negb (hasId ?i ?r')] =>
        assert (Hid' : hasId i r' = true) by exact Hid
    end.
    rewrite Hid'. cbn.
    do 3 eexists. split; [reflexivity|]. split; [reflexivity|].
    right. exists r. eexists.
    split; [reflexivity|]. split; [reflexivity|].
    split; [apply applyPatch_updateData|].
    split; [exact Hid'|]. split; reflexivity.
  - cbn. do 3 eexists. split; [reflexivity|]. split; [reflexivity|].
    left. repeat split. right. intros r0; discriminate.
Qed.

(** C5, as amended: for an id that matches no row of the store,
    [deletePerformance] does not throw and leaves the table as it was; it
    returns false only when the store delete itself (the second store request
    of the run) fails, and true when the store completes the delete of zero
    rows, which is not an error. *)
Theorem deletePerformance_missing_id (id : string) (w : World) :
  matching id (table w) = [] ->
  exists w' evs,
    deletePerformance id w = (Fulfilled (negb (storeFaultAt 1 w)), w', evs)
    /\ table w' = table w
    /\ calls evs = [StoreSelectById id; StoreDelete id].
Proof.
  intros Hm.
  assert (Hlook : exists r,
             selectSingle id w = (Fulfilled r, served w (table w))
             /\ absent r = true).
  { cbn [selectSingle supabase]. unfold refSelectSingle.
    destruct (storeFault w); [|rewrite Hm]; eexists; split; reflexivity. }
  destruct Hlook as (r & Hs & Ha).
  destruct (deleteEq id (served w (table w))) as [rd w2] eqn:Hd.
  destruct (deletePerformance_lookup_absent id w Hs Ha Hd) as (evs & Hrun & Hc).
  exists w2, evs.
  cbn [deleteEq supabase] in Hd. unfold refDeleteEq in Hd.
  assert (Hnth : storeFault (served w (table w)) = storeFaultAt 1 w).
  { unfold storeFault, storeFaultAt, served; cbn.
    destruct (storeFaults w) as [|a [|b l]]; reflexivity. }
  rewrite Hnth in Hd. rewrite Hrun.
  destruct (storeFaultAt 1 w); inversion Hd; subst; cbn.
  - repeat split. exact Hc.
  - repeat split; [|exact Hc].
    apply filter_none_keeps_rest. exact Hm.
Qed.

(** C6: against the reference store, [updatePerformance] never throws;
    every field the input omits keeps its value in every row; no row's
    drive_folder_id changes; rows other than the target are untouched; when
    the request fails or no row has the id, it returns [null] and the table
    is as it was; otherwise the target row is replaced by the row with
    exactly the input's present fields changed, and that row's record is
    returned. *)
Theorem updatePerformance_partial_update
    (performanceData : UpdatePerformanceData.t) (w : World) :
  exists res w' evs,
    updatePerformance performanceData w = (Fulfilled res, w', evs)
    /\ (UpdatePerformanceData.title performanceData = None ->
        sameColumn Row.title w w')
    /\ (UpdatePerformanceData.description performanceData = None ->
        sameColumn Row.description w w')
    /\ (UpdatePerformanceData.coverImage performanceData = None ->
        sameColumn Row.cover_image w w')
    /\ (UpdatePerformanceData.startDate performanceData = None ->
        sameColumn Row.start_date w w')
    /\ (UpdatePerformanceData.endDate performanceData = None ->
        sameColumn Row.end_date w w')
    /\ (UpdatePerformanceData.taggedUsers performanceData = None ->
        sameColumn Row.tagged_users w w')
    /\ sameColumn Row.drive_folder_id w w'
    /\ othersUntouched (UpdatePerformanceData.id performanceData) w w'
    /\ (storeFault w = true
        \/ matching (UpdatePerformanceData.id performanceData) (table w) = [] ->
        res = None /\ table w' = table w)
    /\ (forall r,
          storeFault w = false ->
          matching (UpdatePerformanceData.id performanceData) (table w) = [r] ->
          exists r',
            patchedBy performanceData r r'
            /\ matching (UpdatePerformanceData.id performanceData) (table w')
               = [r']
            /\ res = Some (toPerformance r')).
Proof.
  destruct (updatePerformance_reference_run performanceData w)
    as (res & w' & evs & Hrun & _ & Hcases).
  exists res, w', evs. split; [exact Hrun|].
  unfold sameColumn, othersUntouched.
  destruct Hcases as [(Hres & Ht & Hwhy) | (r & r' & Hf & Hm & Hp & Hid & Hres & Ht)].
  - rewrite Ht. repeat split; try reflexivity; try assumption.
    intros r Hf Hm. destruct Hwhy as [Hw|Hw].
    + rewrite Hf in Hw. discriminate Hw.
    + elim (Hw r Hm).
  - rewrite applyPatch_updateData in Hp. injection Hp as Hp.
    rewrite Ht.
    repeat split.
    + intros Hn. apply (@replaceMatching_column _ Row.title _ _ _ _ Hm).
      rewrite <- Hp, Hn. reflexivity.
    + intros Hn. apply (@replaceMatching_column _ Row.description _ _ _ _ Hm).
      rewrite <- Hp, Hn. reflexivity.
    + intros Hn. apply (@replaceMatching_column _ Row.cover_image _ _ _ _ Hm).
      rewrite <- Hp, Hn. reflexivity.
    + intros Hn. apply (@replaceMatching_column _ Row.start_date _ _ _ _ Hm).
      rewrite <- Hp, Hn. reflexivity.
    + intros Hn. apply (@replaceMatching_column _ Row.end_date _ _ _ _ Hm).
      rewrite <- Hp, Hn. reflexivity.
    + intros Hn. apply (@replaceMatching_column _ Row.tagged_users _ _ _ _ Hm).
      rewrite <- Hp, Hn. reflexivity.
    + apply (@replaceMatching_column _ Row.drive_folder_id _ _ _ _ Hm).
      rewrite <- Hp. reflexivity.
    + apply replaceMatching_others. exact Hid.
    + match goal with
      | H : _ \/ _ |- _ =>
          destruct H as [H|H]; [rewrite Hf in H | rewrite Hm in H];
          discriminate H
      end.
    + match goal with
      | H : _ \/ _ |- _ =>
          destruct H as [H|H]; [rewrite Hf in H | rewrite Hm in H];
          discriminate H
      end.
    + intros r0 _ Hm0. rewrite Hm in Hm0. injection Hm0 as <-.
      exists r'. split; [|split; [|exact Hres]].
      * rewrite <- Hp. unfold patchedBy; cbn. repeat split.
      * rewrite (@replaceMatching_matching _ _ _ Hid), Hm. reflexivity.
Qed.

(** C9: the patch [updatePerformance] sends never has a [created_by] key,
    whatever the input's [createdBy]; against the reference store, every row
    has the same created_by after the operation as before. *)
Theorem updatePerformance_never_changes_created_by
    (performanceData : UpdatePerformanceData.t) (w : World) :
  RowUpdate.created_by (updateData performanceData) = Omitted
  /\ sameColumn (fun r => (Row.id r, Row.created_by r)) w
       (world (updatePerformance performanceData w)).
Proof.
  split; [reflexivity|].
  destruct (updatePerformance_reference_run performanceData w)
    as (res & w' & evs & Hrun & _ & Hcases).
  rewrite Hrun. unfold sameColumn, world; cbn [fst snd].
  destruct Hcases as [(_ & Ht & _) | (r & r' & _ & Hm & Hp & _ & _ & Ht)].
  - rewrite Ht. reflexivity.
  - rewrite Ht. apply (@replaceMatching_column _ _ _ _ _ _ Hm).
    rewrite applyPatch_updateData in Hp. injection Hp as Hp.
    rewrite <- Hp. reflexivity.
Qed.

End ReferenceStore.

(** ** The properties at work on concrete worlds *)

(** C8 at work: the store is down when the list is read. *)
Lemma getPerformances_read_failure_holds :
  failed (fst (selectOrdered (Reference.initial [true] []))) = true
  /\ getPerformances (Reference.initial [true] [])
     = (Fulfilled [],
        snd (selectOrdered (Reference.initial [true] [])),
        [StoreSelectAll; Console Error "Error fetching performances:"]).
Proof.
  split; [reflexivity|].
  apply (@getPerformances_read_failure Reference.World Reference.supabase
           (Reference.initial [true] []) _ (failure Reference.unavailable));
    reflexivity.
Defined.

(** C1 at work: the Folder Service throws, the store is up. *)
Lemma createPerformance_folder_failure_holds :
  let w := Reference.initial [] [Reference.DriveThrows] in
  let rf := fst (createPerformanceFolder "Winter Concert" w) in
  let w1 := snd (createPerformanceFolder "Winter Concert" w) in
  let ri := fst (insertSingle (insertRow winterConcert None) w1) in
  let w2 := snd (insertSingle (insertRow winterConcert None) w1) in
  folderCreationFailed rf = true
  /\ exists evs,
       createPerformance winterConcert w = (Fulfilled (inserted ri), w2, evs)
       /\ calls evs
          = [DriveCreateFolder "Winter Concert";
             StoreInsert (insertRow winterConcert None)]
       /\ RowInsert.drive_folder_id (insertRow winterConcert None) = Null
       /\ (forall row, ri = Fulfilled (success row) ->
           inserted ri = Some (toPerformance row)).
Proof.
  intros w rf w1 ri w2. split; [reflexivity|].
  apply (@createPerformance_folder_failure_is_not_fatal Reference.World
           Reference.supabase Reference.googleDriveService
           winterConcert w w1 w2 rf ri); reflexivity.
Defined.

(** The run of C1 written out: the record is created without a folder. *)
Example createPerformance_after_drive_throw :
  outcome (createPerformance winterConcert
             (Reference.initial [] [Reference.DriveThrows]))
  = Fulfilled (Some
      {| Performance.id := "perf_1";
         Performance.title := "Winter Concert";
         Performance.description := None;
         Performance.coverImage := None;
         Performance.startDate := None;
         Performance.endDate := None;
         Performance.createdAt := "t1";
         Performance.updatedAt := "t1";
         Performance.createdBy := "u1";
         Performance.taggedUsers := [];
         Performance.driveFolderId := None |}).
Proof. reflexivity. Qed.

(** The scenario of the specification: folder creation returns [fld_1]. *)
Example createPerformance_winter_concert :
  exists p,
    outcome (createPerformance winterConcert (Reference.initial [] []))
    = Fulfilled (Some p)
    /\ Performance.driveFolderId p = Some "fld_1"
    /\ Performance.taggedUsers p = []
    /\ Performance.description p = None.
Proof. eexists. repeat split. Qed.

(** C3 at work: the folder is created, then the insert fails. *)
Lemma createPerformance_insert_failure_holds :
  let w := Reference.initial [true] [] in
  let rf := fst (createPerformanceFolder "Winter Concert" w) in
  let w1 := snd (createPerformanceFolder "Winter Concert" w) in
  let ri := fst (insertSingle (insertRow winterConcert (folderIdOf rf)) w1) in
  let w2 := snd (insertSingle (insertRow winterConcert (folderIdOf rf)) w1) in
  failed ri = true
  /\ exists evs,
       createPerformance winterConcert w = (Fulfilled None, w2, evs)
       /\ driveCalls evs = [DriveCreateFolder "Winter Concert"]
       /\ calls evs
          = [DriveCreateFolder "Winter Concert";
             StoreInsert (insertRow winterConcert (folderIdOf rf))].
Proof.
  intros w rf w1 ri w2. split; [reflexivity|].
  apply (@createPerformance_insert_failure_no_rollback Reference.World
           Reference.supabase Reference.googleDriveService
           winterConcert w w1 w2 rf ri); reflexivity.
Defined.

(** After the run of C3 the folder exists and no row does. *)
Example createPerformance_orphaned_folder :
  let w' := world (createPerformance winterConcert
                     (Reference.initial [true] [])) in
  Reference.folders w' = ["fld_1"] /\ Reference.table w' = [].
Proof. split; reflexivity. Qed.

(** C2 at work: the record is linked to [fld_1] and [deleteFolder] throws. *)
Lemma deletePerformance_folder_outcome_holds :
  let w := oneRowWorld [] [Reference.DriveThrows] in
  let w1 := snd (selectSingle "perf_1" w) in
  let rf := fst (deleteFolder "fld_1" w1) in
  let w2 := snd (deleteFolder "fld_1" w1) in
  let rd := fst (deleteEq "perf_1" w2) in
  let w3 := snd (deleteEq "perf_1" w2) in
  selectSingle "perf_1" w = (Fulfilled (success oneRow), w1)
  /\ Row.drive_folder_id oneRow = Some "fld_1"
  /\ exists evs,
       deletePerformance "perf_1" w = (Fulfilled (negb (failed rd)), w3, evs)
       /\ calls evs
          = [StoreSelectById "perf_1"; DriveDeleteFolder "fld_1";
             StoreDelete "perf_1"].
Proof.
  intros w w1 rf w2 rd w3. split; [reflexivity|]. split; [reflexivity|].
  apply (@deletePerformance_folder_outcome_never_blocks Reference.World
           Reference.supabase Reference.googleDriveService
           "perf_1" "fld_1" w w1 w2 w3 oneRow rf rd); reflexivity.
Defined.

(** The run of C2 written out, for each outcome of [deleteFolder]: the row is
    gone and the result is true; after a failure the folder is still there. *)
Example deletePerformance_whatever_the_folder_call_does :
  forall fault,
    let r := deletePerformance "perf_1" (oneRowWorld [] [fault]) in
    outcome r = Fulfilled true
    /\ Reference.table (world r) = []
    /\ Reference.folders (world r)
       = match fault with Reference.DriveOk => [] | _ => ["fld_1"] end.
Proof. intros []; repeat split. Qed.

(** C4 at work: the lookup fails (the store is down for one request), and
    the row is deleted all the same. *)
Lemma deletePerformance_lookup_failure_holds :
  let w := oneRowWorld [true] [] in
  let r := fst (selectSingle "perf_1" w) in
  let w1 := snd (selectSingle "perf_1" w) in
  let rd := fst (deleteEq "perf_1" w1) in
  let w2 := snd (deleteEq "perf_1" w1) in
  r = Fulfilled (failure Reference.unavailable)
  /\ exists evs,
       deletePerformance "perf_1" w = (Fulfilled (negb (failed rd)), w2, evs)
       /\ calls evs = [StoreSelectById "perf_1"; StoreDelete "perf_1"]
       /\ driveCalls evs = [].
Proof.
  intros w r w1 rd w2. split; [reflexivity|].
  apply (@deletePerformance_lookup_failure_still_deletes Reference.World
           Reference.supabase Reference.googleDriveService
           "perf_1" w w1 w2 (failure Reference.unavailable) rd); reflexivity.
Defined.

(** After the run of C4 the row is gone and its folder is left behind. *)
Example deletePerformance_after_failed_lookup :
  let r := deletePerformance "perf_1" (oneRowWorld [true] []) in
  outcome r = Fulfilled true
  /\ Reference.table (world r) = []
  /\ Reference.folders (world r) = ["fld_1"].
Proof. repeat split. Qed.

(** C5 as stated fails: on an empty store, the id matches no row and
    [deletePerformance] returns true. *)
Lemma deletePerformance_missing_id_returns_true :
  Reference.matching "missing-id" (Reference.table (Reference.initial [] []))
  = []
  /\ outcome (deletePerformance "missing-id" (Reference.initial [] []))
     = Fulfilled true
  /\ outcome (deletePerformance "missing-id" (Reference.initial [] []))
     <> Fulfilled false.
Proof. repeat split. discriminate. Qed.

(** C5, as amended, at work on the store of one row and an id it lacks. *)
Lemma deletePerformance_missing_id_holds :
  Reference.matching "perf_7" (Reference.table (oneRowWorld [] [])) = []
  /\ exists w' evs,
       deletePerformance "perf_7" (oneRowWorld [] [])
       = (Fulfilled (negb (storeFaultAt 1 (oneRowWorld [] []))), w', evs)
       /\ Reference.table w' = Reference.table (oneRowWorld [] [])
       /\ calls evs = [StoreSelectById "perf_7"; StoreDelete "perf_7"].
Proof.
  split; [reflexivity|].
  apply (deletePerformance_missing_id "perf_7" (oneRowWorld [] [])).
  reflexivity.
Defined.

(** The only way to [false] for a missing id: the store delete itself fails. *)
Example deletePerformance_missing_id_store_down :
  outcome (deletePerformance "perf_7" (oneRowWorld [false; true] []))
  = Fulfilled false.
Proof. reflexivity. Qed.

(** C7 as stated fails: the input's description is the empty string, the
    insert succeeds, and the returned record has no description. *)
Lemma createPerformance_drops_empty_description :
  exists p,
    outcome (createPerformance springGala (Reference.initial [] []))
    = Fulfilled (Some p)
    /\ CreatePerformanceData.description springGala = Some ""
    /\ Performance.description p = None
    /\ Performance.description p
       <> CreatePerformanceData.description springGala.
Proof. eexists. repeat split. discriminate. Qed.

(** C7, as amended, at work on the reference store. *)
Lemma createPerformance_returns_input_fields_holds :
  let w := Reference.initial [] [] in
  let rf := fst (createPerformanceFolder "Spring Gala" w) in
  let w1 := snd (createPerformanceFolder "Spring Gala" w) in
  let payload := insertRow springGala (folderIdOf rf) in
  let w2 := snd (insertSingle payload w1) in
  exists row,
    insertSingle payload w1 = (Fulfilled (success row), w2)
    /\ stores payload row
    /\ exists p evs,
         createPerformance springGala w = (Fulfilled (Some p), w2, evs)
         /\ Performance.title p = "Spring Gala"
         /\ Performance.description p = shown (Some "")
         /\ Performance.coverImage p = shown None
         /\ Performance.startDate p = shown None
         /\ Performance.endDate p = shown None
         /\ Performance.taggedUsers p = orEmptyArray (Some ["u2"; "u3"])
         /\ Performance.id p = Row.id row
         /\ Performance.createdAt p = Row.created_at row
         /\ Performance.updatedAt p = Row.updated_at row
         /\ RowInsert.id payload = Omitted
         /\ RowInsert.created_at payload = Omitted
         /\ RowInsert.updated_at payload = Omitted.
Proof.
  intros w rf w1 payload w2.
  eexists. split; [reflexivity|]. split; [repeat split|].
  apply (@createPerformance_returns_input_fields Reference.World
           Reference.supabase Reference.googleDriveService
           springGala w w1 w2 rf); [reflexivity | reflexivity | repeat split].
Defined.

(** C6 and C9 at work: renaming [perf_1] while trying to reassign it. *)
Example updatePerformance_rename_only :
  let r := updatePerformance renameAndReassign (oneRowWorld [] []) in
  Reference.table (world r)
  = [ {| Row.id := "perf_1";
         Row.title := "Winter Gala";
         Row.description := Some "";
         Row.cover_image := None;
         Row.start_date := Some "2025-12-01";
         Row.end_date := None;
         Row.tagged_users := None;
         Row.created_by := "u1";
         Row.drive_folder_id := Some "fld_1";
         Row.created_at := "t1";
         Row.updated_at := "t1" |} ]
  /\ calls (trace r)
     = [StoreUpdate (updateData renameAndReassign) "perf_1"].
Proof. split; reflexivity. Qed.

(** C6 at work: no row has the id, or the store is down. *)
Example updatePerformance_absent :
  outcome (updatePerformance renameAndReassign (Reference.initial [] []))
  = Fulfilled None
  /\ outcome (updatePerformance renameAndReassign (oneRowWorld [true] []))
     = Fulfilled None.
Proof. split; reflexivity. Qed.

(** C10 at work: the stored description is the empty string, tagged_users is
    NULL; the record read back has no description and an empty list. *)
Example getPerformanceById_hides_blank_columns :
  exists p,
    outcome (getPerformanceById "perf_1" (oneRowWorld [] []))
    = Fulfilled (Some p)
    /\ Row.description oneRow = Some ""
    /\ Performance.description p = None
    /\ Row.tagged_users oneRow = None
    /\ Performance.taggedUsers p = [].
Proof. eexists. repeat split. Qed.

(** ** Further properties, for every store and Folder Service *)

Section EveryOutcome.
Context {W : Type} {supabase : SupabaseClient W}
        {googleDriveService : GoogleDriveService W}.

(** [getPerformanceById] for a settled lookup. *)
Lemma getPerformanceById_run (id : string) (w w1 : W)
    (rl : Settled (Response Row.t)) :
  selectSingle id w = (rl, w1) ->
  exists evs,
    getPerformanceById id w
    = (match rl with
       | Fulfilled r => Fulfilled (recordOf r)
       | Rejected e => Rejected e
       end, w1, evs)
    /\ calls evs = [StoreSelectById id].
Proof.
  intros Hs. unfold getPerformanceById, bind, await, console.
  rewrite Hs. destruct rl as [[[row|] [e|]]|e]; cbn;
    eexists; split; reflexivity.
Qed.

(** The three ways [deletePerformance] can run. *)
Lemma deletePerformance_cases (id : string) (w : W) :
  exists b w' evs,
    deletePerformance id w = (Fulfilled b, w', evs)
    /\ ((exists e,
           selectSingle id w = (Rejected e, w')
           /\ b = false
           /\ calls evs = [StoreSelectById id])
        \/ (exists r w1 rd,
              selectSingle id w = (Fulfilled r, w1)
              /\ linkedFolder r = None
              /\ deleteEq id w1 = (rd, w')
              /\ b = negb (failed rd)
              /\ calls evs = [StoreSelectById id; StoreDelete id])
        \/ (exists r w1 folderId rf w2 rd,
              selectSingle id w = (Fulfilled r, w1)
              /\ linkedFolder r = Some folderId
              /\ deleteFolder folderId w1 = (rf, w2)
              /\ deleteEq id w2 = (rd, w')
              /\ b = negb (failed rd)
              /\ calls evs
                 = [StoreSelectById id; DriveDeleteFolder folderId;
                    StoreDelete id])).
Proof.
  destruct (selectSingle id w) as [rl w1] eqn:Hs.
  destruct (getPerformanceById_run id w Hs) as (evs & Hget & Hcalls).
  unfold deletePerformance, tryCatch, bind. rewrite Hget.
  unfold calls in *.
  destruct rl as [r|e].
  - destruct (recordOf r) as [p|] eqn:Hrec;
      [destruct (Performance.driveFolderId p) as [folderId|] eqn:Hfid;
       [destruct (truthy folderId) eqn:Ht|]|].
    + destruct (deleteFolder folderId w1) as [rf w2] eqn:Hf.
      destruct (deleteFolderStep_run id folderId w1 Hf)
        as (evs' & Hstep & Hcalls').
      unfold calls in Hcalls'.
      rewrite Hstep. unfold await.
      destruct (deleteEq id w2) as [rd w3] eqn:Hd.
      destruct rd as [[d [e|]]|e]; cbn;
        (do 3 eexists; split; [reflexivity|]);
        right; right; exists r, w1, folderId, rf, w2; eexists;
        (split; [reflexivity|]);
        (split; [unfold linkedFolder; rewrite Hrec, Hfid, Ht; reflexivity|]);
        (split; [exact Hf|]); (split; [exact Hd|]); (split; [reflexivity|]);
        cbn; rewrite ?filter_app, Hcalls, Hcalls'; reflexivity.
    + cbn [ret]. unfold await.
      destruct (deleteEq id w1) as [rd w3] eqn:Hd.
      destruct rd as [[d [e|]]|e]; cbn;
        (do 3 eexists; split; [reflexivity|]);
        right; left; exists r, w1; eexists;
        (split; [reflexivity|]);
        (split; [unfold linkedFolder; rewrite Hrec, ?Hfid, ?Ht; reflexivity|]);
        (split; [exact Hd|]); (split; [reflexivity|]);
        cbn; rewrite ?filter_app, Hcalls; reflexivity.
    + cbn [ret]. unfold await.
      destruct (deleteEq id w1) as [rd w3] eqn:Hd.
      destruct rd as [[d [e|]]|e]; cbn;
        (do 3 eexists; split; [reflexivity|]);
        right; left; exists r, w1; eexists;
        (split; [reflexivity|]);
        (split; [unfold linkedFolder; rewrite Hrec, ?Hfid, ?Ht; reflexivity|]);
        (split; [exact Hd|]); (split; [reflexivity|]);
        cbn; rewrite ?filter_app, Hcalls; reflexivity.
    + cbn [ret]. unfold await.
      destruct (deleteEq id w1) as [rd w3] eqn:Hd.
      destruct rd as [[d [e|]]|e]; cbn;
        (do 3 eexists; split; [reflexivity|]);
        right; left; exists r, w1; eexists;
        (split; [reflexivity|]);
        (split; [unfold linkedFolder; rewrite Hrec, ?Hfid, ?Ht; reflexivity|]);
        (split; [exact Hd|]); (split; [reflexivity|]);
        cbn; rewrite ?filter_app, Hcalls; reflexivity.
  - cbn. do 3 eexists. split; [reflexivity|].
    left. exists e. split; [reflexivity|]. split; [reflexivity|].
    cbn. rewrite ?filter_app, Hcalls. reflexivity.
Qed.

(** X1: once the lookup has resolved, [getPerformanceById] fulfils; it
    returns [null] exactly when the response carries an error or no row (an
    error wins over a row), and otherwise the record of the row; the lookup
    is its only external call. *)
Theorem getPerformanceById_collapses_failures (id : string) (w w1 : W)
    (r : Response Row.t) :
  selectSingle id w = (Fulfilled r, w1) ->
  exists res evs,
    getPerformanceById id w = (Fulfilled res, w1, evs)
    /\ calls evs = [StoreSelectById id]
    /\ (res = None <-> absent r = true)
    /\ (forall row, data r = Some row -> error r = None ->
        res = Some (toPerformance row)).
Proof.
  intros Hs.
  destruct (getPerformanceById_run id w Hs) as (evs & Hrun & Hc).
  exists (recordOf r), evs. split; [exact Hrun|]. split; [exact Hc|].
  unfold recordOf, absent. destruct r as [[row|] [e|]]; cbn; split;
    try (split; intros H; (reflexivity || discriminate H));
    intros row' Hd He; try discriminate Hd; try discriminate He.
  injection Hd as <-. reflexivity.
Qed.

(** X2: when the select succeeds, [getPerformances] returns one record per
    row, in the order the store returned the rows. *)
Theorem getPerformances_keeps_store_order (w w1 : W) (rows : list Row.t) :
  selectOrdered w = (Fulfilled (success rows), w1) ->
  exists ps,
    getPerformances w = (Fulfilled ps, w1, [StoreSelectAll])
    /\ length ps = length rows
    /\ map Performance.id ps = map Row.id rows
    /\ map Performance.createdAt ps = map Row.created_at rows
    /\ (forall n row, nth_error rows n = Some row ->
        nth_error ps n = Some (toPerformance row)).
Proof.
  intros Hs. exists (map toPerformance rows).
  split; [|split; [|split; [|split]]].
  - unfold getPerformances, bind, await. rewrite Hs. reflexivity.
  - apply length_map.
  - rewrite map_map. reflexivity.
  - rewrite map_map. reflexivity.
  - intros n row Hn. apply map_nth_error. exact Hn.
Qed.

(** X3: the three methods without a [try]/[catch] reject exactly in these
    cases: [getPerformances] and [updatePerformance] when the store request
    rejects (with the same value) or resolves with neither data nor error
    (with a TypeError); [getPerformanceById] only when the request rejects. *)
Theorem unguarded_methods_reject_exactly_when :
  (forall (w : W) (e : JsError),
      outcome (getPerformances w) = Rejected e
      <-> (fst (selectOrdered w) = Rejected e
           \/ (e = nullError
               /\ fst (selectOrdered w) = Fulfilled (mkResponse None None))))
  /\ (forall (id : string) (w : W) (e : JsError),
      outcome (getPerformanceById id w) = Rejected e
      <-> fst (selectSingle id w) = Rejected e)
  /\ (forall (performanceData : UpdatePerformanceData.t) (w : W)
        (e : JsError),
      outcome (updatePerformance performanceData w) = Rejected e
      <-> (fst (updateSingle (updateData performanceData)
                  (UpdatePerformanceData.id performanceData) w) = Rejected e
           \/ (e = nullError
               /\ fst (updateSingle (updateData performanceData)
                         (UpdatePerformanceData.id performanceData) w)
                  = Fulfilled (mkResponse None None)))).
Proof.
  split; [|split].
  - intros w e. unfold getPerformances, bind, await, outcome.
    destruct (selectOrdered w) as [[[[rows|] [e0|]]|e0] w1]; cbn;
      (split; [intros H | intros [H|[H1 H]]]); try discriminate.
    + right. injection H as <-. split; reflexivity.
    + subst e. reflexivity.
    + left. congruence.
    + congruence.
  - intros id w e. unfold getPerformanceById, bind, await, console, outcome.
    destruct (selectSingle id w) as [[[[row|] [e0|]]|e0] w1]; cbn;
      (split; intros H); try discriminate; congruence.
  - intros performanceData w e. unfold updatePerformance, bind, await, outcome.
    destruct (updateSingle (updateData performanceData)
                (UpdatePerformanceData.id performanceData) w)
      as [[[[row|] [e0|]]|e0] w1]; cbn;
      (split; [intros H | intros [H|[H1 H]]]); try discriminate.
    + right. injection H as <-. split; reflexivity.
    + subst e. reflexivity.
    + left. congruence.
    + congruence.
Qed.

(** X4: whatever the Folder Service and the store do (fulfil, resolve with
    an error, reject), [createPerformance] fulfils; its external calls are
    always the folder call followed by one insert, whose payload carries the
    folder id the folder call left; the result is decided by the insert. *)
Theorem createPerformance_always_fulfils
    (performanceData : CreatePerformanceData.t) (w : W) :
  let title := CreatePerformanceData.title performanceData in
  let rf := fst (createPerformanceFolder title w) in
  let w1 := snd (createPerformanceFolder title w) in
  let payload := insertRow performanceData (folderIdOf rf) in
  exists evs,
    createPerformance performanceData w
    = (Fulfilled (inserted (fst (insertSingle payload w1))),
       snd (insertSingle payload w1), evs)
    /\ calls evs = [DriveCreateFolder title; StoreInsert payload].
Proof.
  intros title rf w1 payload.
  apply (@createPerformance_run W _ _ performanceData w w1
           (snd (insertSingle payload w1)) rf (fst (insertSingle payload w1))).
  - apply surjective_pairing.
  - apply surjective_pairing.
Qed.

(** X5: whatever the store and the Folder Service do, [deletePerformance]
    fulfils with a boolean; it makes the lookup, then at most one
    [deleteFolder] call, then at most one store delete, and nothing else; it
    returns true only if it made the store delete. *)
Theorem deletePerformance_always_fulfils (id : string) (w : W) :
  exists b w' evs,
    deletePerformance id w = (Fulfilled b, w', evs)
    /\ (calls evs = [StoreSelectById id]
        \/ calls evs = [StoreSelectById id; StoreDelete id]
        \/ exists folderId,
             calls evs
             = [StoreSelectById id; DriveDeleteFolder folderId;
                StoreDelete id])
    /\ (b = true -> In (StoreDelete id) (calls evs)).
Proof.
  destruct (deletePerformance_cases id w) as (b & w' & evs & Hrun & Hcases).
  exists b, w', evs. split; [exact Hrun|].
  destruct Hcases as [(e & _ & Hb & Hc)
                     |[(r & w1 & rd & _ & _ & _ & _ & Hc)
                      |(r & w1 & f & rf & w2 & rd & _ & _ & _ & _ & _ & Hc)]];
    rewrite Hc.
  - split; [left; reflexivity|]. intros Ht. rewrite Hb in Ht. discriminate Ht.
  - split; [right; left; reflexivity|]. intros _. right; left; reflexivity.
  - split; [right; right; exists f; reflexivity|].
    intros _. right; right; left; reflexivity.
Qed.

(** X6: when the lookup of [deletePerformance] rejects, the outer [catch]
    answers: the operation returns false and the store delete is not made. *)
Theorem deletePerformance_rejected_lookup_skips_delete (id : string)
    (w w1 : W) (e : JsError) :
  selectSingle id w = (Rejected e, w1) ->
  exists evs,
    deletePerformance id w = (Fulfilled false, w1, evs)
    /\ calls evs = [StoreSelectById id]
    /\ In (Console Error "Unexpected error during performance deletion:") evs.
Proof.
  intros Hs.
  destruct (getPerformanceById_run id w Hs) as (evs & Hget & Hcalls).
  unfold deletePerformance, tryCatch, bind. rewrite Hget. cbn.
  eexists. split; [reflexivity|]. split.
  - unfold calls in *. rewrite filter_app, Hcalls. reflexivity.
  - apply in_or_app. right. left. reflexivity.
Qed.

(** X7: when the record found has no folder id (the column is NULL or the
    empty string), [deletePerformance] makes no Folder Service call and goes
    straight to the store delete, which decides the result. *)
Theorem deletePerformance_without_folder (id : string) (w w1 w2 : W)
    (row : Row.t) (rd : Settled (Response unit)) :
  selectSingle id w = (Fulfilled (success row), w1) ->
  shown (Row.drive_folder_id row) = None ->
  deleteEq id w1 = (rd, w2) ->
  exists evs,
    deletePerformance id w = (Fulfilled (negb (failed rd)), w2, evs)
    /\ calls evs = [StoreSelectById id; StoreDelete id]
    /\ driveCalls evs = [].
Proof.
  intros Hs Hno Hd.
  destruct (deletePerformance_cases id w) as (b & w' & evs & Hrun & Hcases).
  rewrite Hs in Hcases.
  assert (Hlink : linkedFolder (success row) = None).
  { unfold linkedFolder; cbn. rewrite shown_orUndefined, Hno. reflexivity. }
  destruct Hcases as [(e & He & _)
                     |[(r & w1' & rd' & Hs' & _ & Hd' & Hb & Hc)
                      |(r & w1' & f & rf & w2' & rd' & Hs' & Hl & _)]].
  - discriminate He.
  - injection Hs' as <- <-. rewrite Hd in Hd'. injection Hd' as <- <-.
    exists evs. rewrite Hrun, Hb. split; [reflexivity|]. split; [exact Hc|].
    rewrite driveCalls_of_calls, Hc. reflexivity.
  - injection Hs' as <- <-. rewrite Hlink in Hl. discriminate Hl.
Qed.

(** X8: when the Folder Service returns a non-empty folder id, the insert
    payload carries that id, and, the insert succeeding with the row stored
    for the payload, the returned record has it as [driveFolderId] and has
    the input's [createdBy]. *)
Theorem createPerformance_links_folder
    (performanceData : CreatePerformanceData.t) (w w1 w2 : W)
    (folderId : string) (row : Row.t) :
  createPerformanceFolder (CreatePerformanceData.title performanceData) w
    = (Fulfilled (Some folderId), w1) ->
  truthy folderId = true ->
  insertSingle (insertRow performanceData (Some folderId)) w1
    = (Fulfilled (success row), w2) ->
  stores (insertRow performanceData (Some folderId)) row ->
  exists p evs,
    createPerformance performanceData w = (Fulfilled (Some p), w2, evs)
    /\ calls evs
       = [DriveCreateFolder (CreatePerformanceData.title performanceData);
          StoreInsert (insertRow performanceData (Some folderId))]
    /\ RowInsert.drive_folder_id (insertRow performanceData (Some folderId))
       = Value folderId
    /\ Performance.driveFolderId p = Some folderId
    /\ Performance.createdBy p
       = CreatePerformanceData.createdBy performanceData.
Proof.
  intros Hf Ht Hi (_ & Hb & _ & _ & _ & _ & _ & Hfid).
  destruct (@createPerformance_run W _ _ performanceData w w1 w2
              (Fulfilled (Some folderId)) (Fulfilled (success row)) Hf Hi)
    as (evs & Hrun & Hc).
  exists (toPerformance row), evs.
  split; [exact Hrun|]. split; [exact Hc|]. split; [reflexivity|].
  cbn [toPerformance Performance.driveFolderId Performance.createdBy].
  rewrite Hfid, Hb. cbn. rewrite Ht. split; reflexivity.
Qed.

(** X9: when the Folder Service fulfils with the empty string, the outcome
    is logged as a failed folder creation, yet the insert payload carries
    [drive_folder_id: ""] rather than [null]; the record returned for the
    stored row still shows no [driveFolderId]. *)
Theorem createPerformance_empty_folder_id
    (performanceData : CreatePerformanceData.t) (w w1 w2 : W)
    (ri : Settled (Response Row.t)) :
  createPerformanceFolder (CreatePerformanceData.title performanceData) w
    = (Fulfilled (Some ""), w1) ->
  insertSingle (insertRow performanceData (Some "")) w1 = (ri, w2) ->
  exists evs,
    createPerformance performanceData w = (Fulfilled (inserted ri), w2, evs)
    /\ In (Console Warn
             "Could not create Google Drive folder for performance. Will continue without folder ID.")
          evs
    /\ In (StoreInsert (insertRow performanceData (Some ""))) evs
    /\ RowInsert.drive_folder_id (insertRow performanceData (Some ""))
       = Value ""
    /\ (forall row,
          ri = Fulfilled (success row) ->
          stores (insertRow performanceData (Some "")) row ->
          exists p,
            inserted ri = Some p /\ Performance.driveFolderId p = None).
Proof.
  intros Hf Hi.
  unfold createPerformance, createFolderStep, tryCatch, bind, await, console.
  rewrite Hf. cbn. rewrite Hi.
  assert (Hlast : forall row,
             ri = Fulfilled (success row) ->
             stores (insertRow performanceData (Some "")) row ->
             exists p,
               inserted ri = Some p /\ Performance.driveFolderId p = None).
  { intros row -> (_ & _ & _ & _ & _ & _ & _ & Hfid).
    exists (toPerformance row). split; [reflexivity|].
    cbn [toPerformance Performance.driveFolderId]. rewrite Hfid. reflexivity. }
  destruct ri as [[[row|] [e|]]|e]; cbn;
    (eexists; split; [reflexivity|]);
    (split; [cbn; tauto|]); (split; [cbn; tauto|]);
    (split; [reflexivity|]); exact Hlast.
Qed.

(** X10: whatever the store does, each of [getPerformances],
    [getPerformanceById] and [updatePerformance] makes exactly one store
    request and no Folder Service call, and leaves the world as that request
    left it. *)
Theorem reads_and_update_make_one_store_call :
  (forall (w : W),
      calls (trace (getPerformances w)) = [StoreSelectAll]
      /\ world (getPerformances w) = snd (selectOrdered w))
  /\ (forall (id : string) (w : W),
      calls (trace (getPerformanceById id w)) = [StoreSelectById id]
      /\ world (getPerformanceById id w) = snd (selectSingle id w))
  /\ (forall (performanceData : UpdatePerformanceData.t) (w : W),
      calls (trace (updatePerformance performanceData w))
      = [StoreUpdate (updateData performanceData)
           (UpdatePerformanceData.id performanceData)]
      /\ world (updatePerformance performanceData w)
         = snd (updateSingle (updateData performanceData)
                  (UpdatePerformanceData.id performanceData) w)).
Proof.
  split; [|split].
  - intros w. unfold getPerformances, bind, await, trace, world.
    destruct (selectOrdered w) as [[[[rows|] [e0|]]|e0] w1]; cbn;
      split; reflexivity.
  - intros id w. unfold getPerformanceById, bind, await, console, trace, world.
    destruct (selectSingle id w) as [[[[row|] [e0|]]|e0] w1]; cbn;
      split; reflexivity.
  - intros performanceData w. unfold updatePerformance, bind, await, trace, world.
    destruct (updateSingle (updateData performanceData)
                (UpdatePerformanceData.id performanceData) w)
      as [[[[row|] [e0|]]|e0] w1]; cbn; split; reflexivity.
Qed.

End EveryOutcome.

(** ** Further properties of the methods on the reference store *)

Section ReferenceRuns.
Import Reference.

Lemma storeFaultAt_zero (w : World) : storeFaultAt 0 w = storeFault w.
Proof. unfold storeFaultAt, storeFault. destruct (storeFaults w); reflexivity. Qed.

Lemma storeFaultAt_served (n : nat) (w : World) (t : list Row.t) :
  storeFaultAt n (served w t) = storeFaultAt (S n) w.
Proof.
  unfold storeFaultAt, served; cbn.
  destruct (storeFaults w) as [|a l]; [destruct n|]; reflexivity.
Qed.

Lemma storeUp_zero (n : nat) (w : World) :
  storeUp (S n) w -> storeFault w = false.
Proof. intros Hup. rewrite <- storeFaultAt_zero. apply Hup. lia. Qed.

Lemma storeUp_served (n : nat) (w : World) (t : list Row.t) :
  storeUp (S n) w -> storeUp n (served w t).
Proof.
  intros Hup k Hk. rewrite storeFaultAt_served. apply Hup. lia.
Qed.

(** A Folder Service call leaves the store part of the world alone. *)
Lemma createPerformanceFolder_store (name : string) (w : World) :
  let w1 := snd (createPerformanceFolder name w) in
  table w1 = table w /\ nextId w1 = nextId w /\ clock w1 = clock w
  /\ storeFaults w1 = storeFaults w.
Proof.
  cbn [createPerformanceFolder googleDriveService].
  unfold refCreatePerformanceFolder.
  destruct (driveFault w); cbn; repeat split.
Qed.

Lemma deleteFolder_store (folderId : string) (w : World) :
  let w1 := snd (deleteFolder folderId w) in
  table w1 = table w /\ nextId w1 = nextId w /\ clock w1 = clock w
  /\ storeFaults w1 = storeFaults w.
Proof.
  cbn [deleteFolder googleDriveService]. unfold refDeleteFolder.
  destruct (driveFault w); cbn; repeat split.
Qed.

Lemma matching_app (id : string) (t1 t2 : list Row.t) :
  matching id (t1 ++ t2) = matching id t1 ++ matching id t2.
Proof. apply filter_app. Qed.

Lemma hasId_refl (r : Row.t) : hasId (Row.id r) r = true.
Proof. apply String.eqb_refl. Qed.

(** What the store delete of the reference world does. *)
Lemma deleteEq_reference (id : string) (w : World) :
  deleteEq id w
  = (Fulfilled (if storeFault w then failure unavailable
                else mkResponse None None),
     served w (if storeFault w then table w
               else filter (fun r => negb (hasId id r)) (table w))).
Proof.
  cbn [deleteEq supabase]. unfold refDeleteEq.
  destruct (storeFault w); reflexivity.
Qed.

(** What the lookup of the reference world does. *)
Lemma selectSingle_reference (id : string) (w : World) :
  selectSingle id w
  = (Fulfilled (if storeFault w then failure unavailable
                else single (matching id (table w))),
     served w (table w)).
Proof.
  cbn [selectSingle supabase]. unfold refSelectSingle.
  destruct (storeFault w); reflexivity.
Qed.

(** [deletePerformance] on the reference store: the lookup takes the first
    store request and the delete the second. *)
Lemma deletePerformance_reference_run (id : string) (w : World) :
  exists w' evs,
    deletePerformance id w = (Fulfilled (negb (storeFaultAt 1 w)), w', evs)
    /\ table w'
       = (if storeFaultAt 1 w then table w
          else filter (fun r => negb (hasId id r)) (table w))
    /\ nextId w' = nextId w
    /\ (forall n, storeFaultAt n w' = storeFaultAt (S (S n)) w)
    /\ ((driveCalls evs = [] /\ folders w' = folders w
         /\ (storeFault w = true \/ forall row,
                matching id (table w) = [row] ->
                shown (Row.drive_folder_id row) = None))
        \/ (exists row folderId,
              storeFault w = false
              /\ matching id (table w) = [row]
              /\ shown (Row.drive_folder_id row) = Some folderId
              /\ driveCalls evs = [DriveDeleteFolder folderId]
              /\ folders w'
                 = folders (snd (deleteFolder folderId
                                   (served w (table w)))))).
Proof.
  destruct (deletePerformance_cases id w) as (b & w' & evs & Hrun & Hcases).
  rewrite selectSingle_reference in Hcases.
  exists w', evs.
  destruct Hcases as [(e & He & _)
                     |[(r & w1 & rd & Hs & Hl & Hd & Hb & Hc)
                      |(r & w1 & f & rf & w2 & rd & Hs & Hl & Hf & Hd & Hb & Hc)]].
  - discriminate He.
  - injection Hs as <- <-.
    rewrite deleteEq_reference in Hd. injection Hd as <- <-.
    assert (Hat : storeFault (served w (table w)) = storeFaultAt 1 w)
      by (rewrite <- storeFaultAt_zero; apply storeFaultAt_served).
    rewrite Hat in *. rewrite Hrun, Hb.
    split; [destruct (storeFaultAt 1 w); reflexivity|].
    split; [destruct (storeFaultAt 1 w); reflexivity|].
    split; [reflexivity|].
    split; [intros n; rewrite !storeFaultAt_served; reflexivity|].
    left. split; [rewrite driveCalls_of_calls, Hc; reflexivity|].
    split; [reflexivity|].
    destruct (storeFault w); [left; reflexivity|right].
    intros row Hm. rewrite Hm in Hl. unfold linkedFolder in Hl; cbn in Hl.
    rewrite <- shown_orUndefined.
    destruct (orUndefined (Row.drive_folder_id row)) as [x|] eqn:Hx;
      [|reflexivity].
    destruct (truthy x) eqn:Ht; [discriminate Hl|].
    unfold orUndefined in Hx. destruct (Row.drive_folder_id row) as [y|];
      [|discriminate Hx].
    destruct (truthy y) eqn:Hy; [|discriminate Hx].
    injection Hx as ->. rewrite Hy in Ht. discriminate Ht.
  - injection Hs as <- <-.
    pose proof (deleteFolder_store f (served w (table w))) as Hst.
    rewrite Hf in Hst. cbn [snd] in Hst.
    destruct Hst as (Htab & Hnid & _ & Hsf).
    rewrite deleteEq_reference in Hd. injection Hd as <- <-.
    assert (Hat : storeFault w2 = storeFaultAt 1 w).
    { rewrite <- storeFaultAt_zero. unfold storeFaultAt. rewrite Hsf.
      apply (storeFaultAt_served 0 w (table w)). }
    rewrite Hat in *. rewrite Hrun, Hb.
    split; [destruct (storeFaultAt 1 w); reflexivity|].
    split; [cbn; rewrite Htab; destruct (storeFaultAt 1 w); reflexivity|].
    split; [cbn; rewrite Hnid; reflexivity|].
    split.
    { intros n. rewrite storeFaultAt_served. unfold storeFaultAt at 1.
      rewrite Hsf. apply (storeFaultAt_served (S n) w (table w)). }
    right.
    destruct (storeFault w) eqn:Hfault; [discriminate Hl|].
    unfold single in Hl.
    destruct (matching id (table w)) as [|row [|row2 rest]] eqn:Hm;
      try discriminate Hl.
    exists row, f. split; [reflexivity|]. split; [reflexivity|].
    split.
    { unfold linkedFolder in Hl; cbn in Hl. rewrite <- shown_orUndefined.
      destruct (orUndefined (Row.drive_folder_id row)) as [x|];
        [|discriminate Hl].
      destruct (truthy x); [|discriminate Hl]. exact Hl. }
    split; [rewrite driveCalls_of_calls, Hc; reflexivity|].
    rewrite Hf. reflexivity.
Qed.

(** [createPerformance] on the reference store: the insert takes the first
    store request; it adds one row under the fresh id, or leaves the table
    alone. *)
Lemma createPerformance_reference_run
    (performanceData : CreatePerformanceData.t) (w : World) :
  let title := CreatePerformanceData.title performanceData in
  let rf := fst (createPerformanceFolder title w) in
  let w1 := snd (createPerformanceFolder title w) in
  exists res w' evs,
    createPerformance performanceData w = (Fulfilled res, w', evs)
    /\ folders w' = folders w1
    /\ driveFaults w' = driveFaults w1
    /\ (forall n, storeFaultAt n w' = storeFaultAt (S n) w)
    /\ ((res = None /\ table w' = table w /\ nextId w' = nextId w
         /\ (storeFault w = true \/ matching (freshId w) (table w) <> []))
        \/ (exists row,
              storeFault w = false
              /\ matching (freshId w) (table w) = []
              /\ res = Some (toPerformance row)
              /\ table w' = table w ++ [row]
              /\ nextId w' = S (nextId w)
              /\ Row.id row = freshId w
              /\ stores (insertRow performanceData (folderIdOf rf)) row)).
Proof.
  intros title rf w1.
  destruct (createPerformanceFolder_store title w) as (Htab & Hnid & Hclk & Hsf).
  fold w1 in Htab, Hnid, Hclk, Hsf.
  destruct (insertSingle (insertRow performanceData (folderIdOf rf)) w1)
    as [ri w2] eqn:Hi.
  destruct (@createPerformance_run World _ _ performanceData w w1 w2 rf ri
              (surjective_pairing _) Hi) as (evs & Hrun & _).
  exists (inserted ri), w2, evs. split; [exact Hrun|].
  cbn [insertSingle supabase] in Hi. unfold refInsertSingle in Hi.
  assert (Hfault : storeFault w1 = storeFault w)
    by (unfold storeFault; rewrite Hsf; reflexivity).
  assert (Hat : forall n t, storeFaultAt n (served w1 t) = storeFaultAt (S n) w).
  { intros n t. rewrite storeFaultAt_served. unfold storeFaultAt.
    rewrite Hsf. reflexivity. }
  rewrite Hfault in Hi.
  destruct (storeFault w) eqn:Hw.
  { injection Hi as <- <-. split; [reflexivity|]. split; [reflexivity|].
    split; [intros n; apply Hat|]. left. cbn. rewrite Htab, Hnid.
    repeat split. left. reflexivity. }
  unfold newRow in Hi. cbn [insertRow RowInsert.id RowInsert.created_at
                            RowInsert.updated_at required] in Hi.
  cbn [Row.id] in Hi.
  assert (Hfresh : freshId w1 = freshId w)
    by (unfold freshId; rewrite Hnid; reflexivity).
  rewrite Hfresh, Htab in Hi.
  destruct (matching (freshId w) (table w)) as [|x rest] eqn:Hm.
  - injection Hi as <- <-. split; [reflexivity|]. split; [reflexivity|].
    split.
    { intros n. unfold storeFaultAt; cbn. rewrite Hsf.
      destruct (storeFaults w) as [|a l]; [destruct n|]; reflexivity. }
    right. eexists. split; [reflexivity|]. split; [reflexivity|].
    split; [reflexivity|]. cbn. rewrite ?Htab, ?Hnid.
    split; [reflexivity|]. split; [reflexivity|]. split; [reflexivity|].
    unfold stores; cbn. repeat split.
  - injection Hi as <- <-. split; [reflexivity|]. split; [reflexivity|].
    split; [intros n; apply Hat|]. left. cbn. rewrite ?Htab, ?Hnid.
    repeat split. right. discriminate.
Qed.

Lemma matching_filtered_out (id : string) (t : list Row.t) :
  matching id (filter (fun r => negb (hasId id r)) t) = [].
Proof.
  unfold matching. induction t as [|x t IH]; cbn; [reflexivity|].
  destruct (hasId id x) eqn:Hx; cbn; [exact IH|].
  rewrite Hx. exact IH.
Qed.

(** A lookup of an id that no row has finds nothing. *)
Lemma getPerformanceById_reference_missing (id : string) (w : World) :
  matching id (table w) = [] ->
  outcome (getPerformanceById id w) = Fulfilled None.
Proof.
  intros Hm.
  destruct (getPerformanceById_run id w (selectSingle_reference id w))
    as (evs & Hrun & _).
  rewrite Hrun, Hm. destruct (storeFault w); reflexivity.
Qed.

(** A lookup of an id that exactly one row has, the store being up. *)
Lemma getPerformanceById_reference_found (id : string) (w : World)
    (row : Row.t) :
  storeFault w = false ->
  matching id (table w) = [row] ->
  outcome (getPerformanceById id w) = Fulfilled (Some (toPerformance row)).
Proof.
  intros Hf Hm.
  destruct (getPerformanceById_run id w (selectSingle_reference id w))
    as (evs & Hrun & _).
  rewrite Hrun, Hm, Hf. reflexivity.
Qed.

(** X11: on the reference store, once [deletePerformance] has returned
    true, no row with that id is left and [getPerformanceById] on the same id
    returns [null]. *)
Theorem deletePerformance_then_get (id : string) (w : World) :
  outcome (deletePerformance id w) = Fulfilled true ->
  matching id (table (world (deletePerformance id w))) = []
  /\ outcome (getPerformanceById id (world (deletePerformance id w)))
     = Fulfilled None.
Proof.
  intros Htrue.
  destruct (deletePerformance_reference_run id w)
    as (w' & evs & Hrun & Htab & _).
  rewrite Hrun in *. unfold outcome, world in *; cbn [fst snd] in *.
  assert (Hat : storeFaultAt 1 w = false).
  { destruct (storeFaultAt 1 w); [discriminate Htrue | reflexivity]. }
  rewrite Hat in Htab.
  assert (Hm : matching id (table w') = []).
  { rewrite Htab. apply matching_filtered_out. }
  split; [exact Hm|].
  apply (getPerformanceById_reference_missing id w' Hm).
Qed.

(** X12: on the reference store, when the next two store requests are
    served and the fresh id is free, [createPerformance] returns a record
    under the fresh id, and [getPerformanceById] on that id then returns the
    same record. *)
Theorem createPerformance_then_get
    (performanceData : CreatePerformanceData.t) (w : World) :
  storeUp 2 w ->
  matching (freshId w) (table w) = [] ->
  exists p,
    outcome (createPerformance performanceData w) = Fulfilled (Some p)
    /\ Performance.id p = freshId w
    /\ outcome (getPerformanceById (Performance.id p)
                  (world (createPerformance performanceData w)))
       = Fulfilled (Some p).
Proof.
  intros Hup Hfree.
  destruct (createPerformance_reference_run performanceData w)
    as (res & w' & evs & Hrun & _ & _ & Hat & Hcases).
  rewrite Hrun. unfold outcome, world; cbn [fst snd].
  pose proof (storeUp_zero Hup) as Hf0.
  destruct Hcases as [(_ & _ & _ & [Hno|Hno])
                     | (row & _ & _ & Hres & Htab & _ & Hid & _)].
  - rewrite Hf0 in Hno. discriminate Hno.
  - elim (Hno Hfree).
  - exists (toPerformance row). split; [rewrite Hres; reflexivity|].
    split; [exact Hid|].
    cbn [toPerformance Performance.id]. rewrite Hid.
    apply getPerformanceById_reference_found.
    + rewrite <- storeFaultAt_zero, Hat. apply Hup. lia.
    + rewrite Htab, matching_app, Hfree, <- Hid.
      unfold matching; cbn [app filter]. rewrite hasId_refl. reflexivity.
Qed.

Lemma filter_out_last (f : string) (l : list string) :
  ~ In f l ->
  filter (fun x => negb (String.eqb f x)) (l ++ [f]) = l.
Proof.
  intros Hn. rewrite filter_app. cbn. rewrite String.eqb_refl. cbn.
  rewrite app_nil_r.
  induction l as [|x l IH]; cbn; [reflexivity|].
  destruct (String.eqb f x) eqn:Hx.
  - apply String.eqb_eq in Hx. elim Hn. left. symmetry. exact Hx.
  - cbn. rewrite IH; [reflexivity|]. intros Hin. apply Hn. right. exact Hin.
Qed.

(** X13: on the reference store, when the next three store requests are
    served and the fresh id is free, creating a performance and then deleting
    it by the returned id returns true and leaves the table as it was before
    the create; when no Folder Service fault is scripted either, the folder
    created for it is removed again. *)
Theorem createPerformance_then_delete
    (performanceData : CreatePerformanceData.t) (w : World) :
  storeUp 3 w ->
  matching (freshId w) (table w) = [] ->
  exists p,
    outcome (createPerformance performanceData w) = Fulfilled (Some p)
    /\ outcome (deletePerformance (Performance.id p)
                  (world (createPerformance performanceData w)))
       = Fulfilled true
    /\ table (world (deletePerformance (Performance.id p)
                       (world (createPerformance performanceData w))))
       = table w
    /\ (driveFaults w = [] ->
        ~ In (freshFolder w) (folders w) ->
        Performance.driveFolderId p = Some (freshFolder w)
        /\ folders (world (createPerformance performanceData w))
           = folders w ++ [freshFolder w]
        /\ folders (world (deletePerformance (Performance.id p)
                             (world (createPerformance performanceData w))))
           = folders w).
Proof.
  intros Hup Hfree.
  destruct (createPerformance_reference_run performanceData w)
    as (res & w' & evs & Hrun & Hfold & Hdf & Hat & Hcases).
  pose proof (storeUp_zero Hup) as Hf0.
  destruct Hcases as [(_ & _ & _ & [Hno|Hno])
                     | (row & _ & _ & Hres & Htab & _ & Hid & Hst)].
  { rewrite Hf0 in Hno. discriminate Hno. }
  { elim (Hno Hfree). }
  rewrite Hrun. unfold outcome, world; cbn [fst snd].
  exists (toPerformance row). split; [rewrite Hres; reflexivity|].
  cbn [toPerformance Performance.id Performance.driveFolderId]. rewrite Hid.
  destruct (deletePerformance_reference_run (freshId w) w')
    as (w'' & evs2 & Hrun2 & Htab2 & _ & _ & Hdrive).
  rewrite Hrun2; cbn [fst snd].
  assert (H1 : storeFaultAt 1 w' = false) by (rewrite Hat; apply Hup; lia).
  assert (H0 : storeFault w' = false).
  { rewrite <- storeFaultAt_zero, Hat. apply Hup. lia. }
  assert (Hm : matching (freshId w) (table w') = [row]).
  { rewrite Htab, matching_app, Hfree, <- Hid.
    unfold matching; cbn [app filter]. rewrite hasId_refl. reflexivity. }
  rewrite H1 in *.
  split; [reflexivity|]. split.
  { rewrite Htab2, Htab, filter_app, (filter_none_keeps_rest _ _ Hfree).
    cbn [filter]. rewrite <- Hid, hasId_refl. cbn. apply app_nil_r. }
  intros Hnofault Hnew.
  assert (Hok : driveFault w = DriveOk)
    by (unfold driveFault; rewrite Hnofault; reflexivity).
  cbn [createPerformanceFolder googleDriveService] in Hfold, Hdf, Hst.
  unfold refCreatePerformanceFolder in Hfold, Hdf, Hst.
  rewrite Hok in Hfold, Hdf, Hst. cbn in Hfold, Hdf, Hst.
  rewrite Hnofault in Hdf. cbn in Hdf.
  destruct Hst as (_ & _ & _ & _ & _ & _ & _ & Hfid).
  assert (Hshown : shown (Row.drive_folder_id row) = Some (freshFolder w)).
  { rewrite Hfid. reflexivity. }
  split; [rewrite shown_orUndefined; exact Hshown|].
  split; [exact Hfold|].
  destruct Hdrive as [(_ & _ & [Hbad|Hbad])
                     | (row0 & f0 & _ & Hm0 & Hs0 & _ & Hfold2)].
  - rewrite H0 in Hbad. discriminate Hbad.
  - rewrite (Hbad row Hm) in Hshown. discriminate Hshown.
  - rewrite Hm in Hm0. injection Hm0 as <-.
    rewrite Hshown in Hs0. injection Hs0 as <-.
    rewrite Hfold2.
    cbn [deleteFolder googleDriveService]. unfold refDeleteFolder.
    assert (Hok' : driveFault (served w' (table w')) = DriveOk)
      by (unfold driveFault; cbn; rewrite Hdf; reflexivity).
    rewrite Hok'. cbn [snd driveServed folders served].
    rewrite Hfold. apply filter_out_last. exact Hnew.
Qed.

(** The world [updatePerformance] leaves on the reference store: the
    update took one store request. *)
Lemma updatePerformance_reference_faults
    (performanceData : UpdatePerformanceData.t) (w : World) (n : nat) :
  storeFaultAt n (world (updatePerformance performanceData w))
  = storeFaultAt (S n) w.
Proof.
  unfold updatePerformance, bind, await, world.
  cbn [updateSingle supabase]. unfold refUpdateSingle.
  destruct (storeFault w); [apply storeFaultAt_served|].
  destruct (matching (UpdatePerformanceData.id performanceData) (table w))
    as [|r [|r2 rest]]; try apply storeFaultAt_served.
  destruct (applyPatch (updateData performanceData) r) as [r'|];
    [|apply storeFaultAt_served].
  destruct (negb (hasId (UpdatePerformanceData.id performanceData) r')
            && existsb (hasId (Row.id r')) (table w));
    apply storeFaultAt_served.
Qed.

Lemma replaceMatching_twice (id : string) (r' : Row.t) (t : list Row.t) :
  hasId id r' = true ->
  replaceMatching id r' (replaceMatching id r' t) = replaceMatching id r' t.
Proof.
  intros Hr. unfold replaceMatching. rewrite map_map.
  apply map_ext. intros x. destruct (hasId id x) eqn:Hx.
  - rewrite Hr. reflexivity.
  - rewrite Hx. reflexivity.
Qed.

(** Applying the patch of an update input a second time changes nothing. *)
Lemma applyPatch_updateData_twice (performanceData : UpdatePerformanceData.t)
    (r r' : Row.t) :
  applyPatch (updateData performanceData) r = Some r' ->
  applyPatch (updateData performanceData) r' = Some r'.
Proof.
  rewrite !applyPatch_updateData. intros H. injection H as <-.
  destruct performanceData as [t d c s e u b i].
  destruct t, d, c, s, e, u; reflexivity.
Qed.

(** X14: on the reference store, when the next two store requests are
    served, a record returned by [updatePerformance] is the record that
    [getPerformanceById] then returns for the same id. *)
Theorem updatePerformance_then_get
    (performanceData : UpdatePerformanceData.t) (w : World)
    (p : Performance.t) :
  storeUp 2 w ->
  outcome (updatePerformance performanceData w) = Fulfilled (Some p) ->
  outcome (getPerformanceById (UpdatePerformanceData.id performanceData)
             (world (updatePerformance performanceData w)))
  = Fulfilled (Some p).
Proof.
  intros Hup Hres.
  pose proof (updatePerformance_reference_faults performanceData w 0) as Hat.
  destruct (updatePerformance_reference_run performanceData w)
    as (res & w' & evs & Hrun & _ & Hcases).
  rewrite Hrun in *. unfold outcome, world in *; cbn [fst snd] in *.
  injection Hres as ->.
  destruct Hcases as [(Hnone & _) | (r & r' & _ & Hm & _ & Hid & Hsome & Ht)].
  - discriminate Hnone.
  - injection Hsome as ->.
    apply getPerformanceById_reference_found.
    + rewrite <- storeFaultAt_zero, Hat. apply Hup. lia.
    + rewrite Ht, (@replaceMatching_matching _ _ _ Hid), Hm. reflexivity.
Qed.

(** X15: on the reference store, when the next two store requests are
    served, running the same [updatePerformance] a second time returns the
    same result and leaves the table as the first run left it. *)
Theorem updatePerformance_twice
    (performanceData : UpdatePerformanceData.t) (w : World) :
  storeUp 2 w ->
  outcome (updatePerformance performanceData
             (world (updatePerformance performanceData w)))
  = outcome (updatePerformance performanceData w)
  /\ table (world (updatePerformance performanceData
                     (world (updatePerformance performanceData w))))
     = table (world (updatePerformance performanceData w)).
Proof.
  intros Hup.
  pose proof (updatePerformance_reference_faults performanceData w 0) as Hat.
  pose proof (storeUp_zero Hup) as Hf0.
  destruct (updatePerformance_reference_run performanceData w)
    as (res & w' & evs & Hrun & _ & Hcases).
  rewrite Hrun in *. unfold outcome, world in *; cbn [fst snd] in *.
  assert (Hf1 : storeFault w' = false).
  { rewrite <- storeFaultAt_zero, Hat. apply Hup. lia. }
  destruct (updatePerformance_reference_run performanceData w')
    as (res2 & w2 & evs2 & Hrun2 & _ & Hcases2).
  rewrite Hrun2; cbn [fst snd].
  destruct Hcases as [(Hnone & Ht & [Hbad|Hno])
                     | (r & r' & _ & Hm & Hp & Hid & Hsome & Ht)].
  - rewrite Hf0 in Hbad. discriminate Hbad.
  - destruct Hcases2 as [(Hnone2 & Ht2 & _)
                        | (r2 & r2' & _ & Hm2 & _)].
    + rewrite Hnone, Hnone2, Ht2. split; reflexivity.
    + rewrite Ht in Hm2. elim (Hno r2 Hm2).
  - assert (Hm' : matching (UpdatePerformanceData.id performanceData)
                    (table w') = [r']).
    { rewrite Ht, (@replaceMatching_matching _ _ _ Hid), Hm. reflexivity. }
    destruct Hcases2 as [(_ & _ & [Hbad|Hno])
                        | (r2 & r2' & _ & Hm2 & Hp2 & _ & Hsome2 & Ht2)].
    + rewrite Hf1 in Hbad. discriminate Hbad.
    + elim (Hno r' Hm').
    + rewrite Hm' in Hm2. injection Hm2 as <-.
      rewrite (applyPatch_updateData_twice _ _ Hp) in Hp2.
      injection Hp2 as <-.
      rewrite Hsome, Hsome2, Ht2, Ht. split; [reflexivity|].
      apply replaceMatching_twice. exact Hid.
Qed.








Lemma matching_none_not_in (id : string) (t : list Row.t) :
  matching id t = [] -> ~ In id (map Row.id t).
Proof.
  intros Hm Hin. apply in_map_iff in Hin. destruct Hin as (x & Hx & Hin).
  assert (Hf : In x (matching id t)).
  { unfold matching. apply filter_In. split; [exact Hin|].
    unfold hasId. rewrite Hx. apply String.eqb_refl. }
  rewrite Hm in Hf. exact Hf.
Qed.

Lemma NoDup_map_filter {A B : Type} (f : A -> B) (g : A -> bool)
    (l : list A) :
  NoDup (map f l) -> NoDup (map f (filter g l)).
Proof.
  induction l as [|x l IH]; cbn; intros Hn; [constructor|].
  inversion Hn as [|? ? Hnotin Hrest]; subst.
  destruct (g x); cbn; [|apply IH; exact Hrest].
  constructor; [|apply IH; exact Hrest].
  intros Hin. apply Hnotin. apply in_map_iff in Hin.
  destruct Hin as (y & Hy & Hin). apply filter_In in Hin.
  apply in_map_iff. exists y. split; [exact Hy|apply Hin].
Qed.

(** X17: on the reference store, whatever the inputs and the scripted
    faults, [createPerformance], [updatePerformance] and [deletePerformance]
    keep the ids of the table pairwise distinct. *)
Theorem operations_keep_ids_distinct (w : World) :
  NoDup (map Row.id (table w)) ->
  (forall performanceData,
      NoDup (map Row.id
               (table (world (createPerformance performanceData w)))))
  /\ (forall performanceData,
      NoDup (map Row.id
               (table (world (updatePerformance performanceData w)))))
  /\ (forall id,
      NoDup (map Row.id (table (world (deletePerformance id w))))).
Proof.
  intros Hn. split; [|split].
  - intros performanceData.
    destruct (createPerformance_reference_run performanceData w)
      as (res & w' & evs & Hrun & _ & _ & _ & Hcases).
    rewrite Hrun. unfold world; cbn [fst snd].
    destruct Hcases as [(_ & Ht & _) | (row & _ & Hfree & _ & Ht & _ & Hid & _)].
    + rewrite Ht. exact Hn.
    + rewrite Ht, map_app. cbn [map].
      apply (Permutation_NoDup (Permutation_cons_append _ _)).
      constructor; [|exact Hn].
      rewrite Hid. apply matching_none_not_in. exact Hfree.
  - intros performanceData.
    destruct (updatePerformance_reference_run performanceData w)
      as (res & w' & evs & Hrun & _ & Hcases).
    rewrite Hrun. unfold world; cbn [fst snd].
    destruct Hcases as [(_ & Ht & _) | (r & r' & _ & Hm & Hp & _ & _ & Ht)].
    + rewrite Ht. exact Hn.
    + rewrite Ht, (@replaceMatching_column _ Row.id _ _ _ _ Hm); [exact Hn|].
      rewrite applyPatch_updateData in Hp. injection Hp as <-. reflexivity.
  - intros id.
    destruct (deletePerformance_reference_run id w)
      as (w' & evs & Hrun & Ht & _).
    rewrite Hrun. unfold world; cbn [fst snd]. rewrite Ht.
    destruct (storeFaultAt 1 w); [exact Hn|].
    apply NoDup_map_filter. exact Hn.
Qed.

End ReferenceRuns.

(** ** The further properties at work on concrete worlds *)

(** X1 at work: a lookup on an empty store. *)
Lemma getPerformanceById_collapses_failures_holds :
  let w := Reference.initial [] [] in
  let r := failure Reference.notSingle in
  let w1 := snd (selectSingle "missing-id" w) in
  selectSingle "missing-id" w = (Fulfilled r, w1)
  /\ exists res evs,
       getPerformanceById "missing-id" w = (Fulfilled res, w1, evs)
       /\ calls evs = [StoreSelectById "missing-id"]
       /\ (res = None <-> absent r = true)
       /\ (forall row, data r = Some row -> error r = None ->
           res = Some (toPerformance row)).
Proof.
  intros w r w1. split; [reflexivity|].
  apply (@getPerformanceById_collapses_failures Reference.World
           Reference.supabase "missing-id" w w1 r). reflexivity.
Defined.

(** X2 at work: the list of a store of two rows. *)
Lemma getPerformances_keeps_store_order_holds :
  let w := twoRowWorld [] [] in
  let rows := [plainRow; oneRow] in
  let w1 := snd (selectOrdered w) in
  selectOrdered w = (Fulfilled (success rows), w1)
  /\ exists ps,
       getPerformances w = (Fulfilled ps, w1, [StoreSelectAll])
       /\ length ps = length rows
       /\ map Performance.id ps = map Row.id rows
       /\ map Performance.createdAt ps = map Row.created_at rows
       /\ (forall n row, nth_error rows n = Some row ->
           nth_error ps n = Some (toPerformance row)).
Proof.
  intros w rows w1. split; [reflexivity|].
  apply (@getPerformances_keeps_store_order Reference.World
           Reference.supabase w w1 rows). reflexivity.
Defined.

(** X3 at work: with the network down the three methods reject, while
    [createPerformance] and [deletePerformance] answer [null] and false. *)
Example offline_outcomes :
  outcome (getPerformances Scripted.offline)
  = Rejected Scripted.networkDown
  /\ outcome (getPerformanceById "perf_1" Scripted.offline)
     = Rejected Scripted.networkDown
  /\ outcome (updatePerformance renameAndReassign Scripted.offline)
     = Rejected Scripted.networkDown
  /\ outcome (createPerformance winterConcert Scripted.offline)
     = Fulfilled None
  /\ outcome (deletePerformance "perf_1" Scripted.offline)
     = Fulfilled false.
Proof. repeat split. Qed.

(** X3 at work: a response with neither data nor error. *)
Example empty_response_outcomes :
  outcome (getPerformances emptyResponses) = Rejected nullError
  /\ outcome (getPerformanceById "perf_1" emptyResponses) = Fulfilled None
  /\ outcome (updatePerformance renameAndReassign emptyResponses)
     = Rejected nullError
  /\ outcome (createPerformance winterConcert emptyResponses)
     = Fulfilled None.
Proof. repeat split. Qed.

(** X6 at work: the lookup rejects. *)
Lemma deletePerformance_rejected_lookup_holds :
  selectSingle "perf_1" Scripted.offline
  = (Rejected Scripted.networkDown, Scripted.offline)
  /\ exists evs,
       deletePerformance "perf_1" Scripted.offline
       = (Fulfilled false, Scripted.offline, evs)
       /\ calls evs = [StoreSelectById "perf_1"]
       /\ In (Console Error "Unexpected error during performance deletion:")
             evs.
Proof.
  split; [reflexivity|].
  apply (@deletePerformance_rejected_lookup_skips_delete Scripted.World
           Scripted.supabase Scripted.googleDriveService
           "perf_1" Scripted.offline Scripted.offline Scripted.networkDown).
  reflexivity.
Defined.

(** X7 at work: [perf_2] is linked to no folder. *)
Lemma deletePerformance_without_folder_holds :
  let w := twoRowWorld [] [] in
  let w1 := snd (selectSingle "perf_2" w) in
  let rd := fst (deleteEq "perf_2" w1) in
  let w2 := snd (deleteEq "perf_2" w1) in
  selectSingle "perf_2" w = (Fulfilled (success plainRow), w1)
  /\ shown (Row.drive_folder_id plainRow) = None
  /\ exists evs,
       deletePerformance "perf_2" w = (Fulfilled (negb (failed rd)), w2, evs)
       /\ calls evs = [StoreSelectById "perf_2"; StoreDelete "perf_2"]
       /\ driveCalls evs = [].
Proof.
  intros w w1 rd w2. split; [reflexivity|]. split; [reflexivity|].
  apply (@deletePerformance_without_folder Reference.World
           Reference.supabase Reference.googleDriveService
           "perf_2" w w1 w2 plainRow rd); reflexivity.
Defined.

(** X8 at work: the scenario of the specification. *)
Lemma createPerformance_links_folder_holds :
  let w := Reference.initial [] [] in
  let w1 := snd (createPerformanceFolder "Winter Concert" w) in
  let payload := insertRow winterConcert (Some "fld_1") in
  let w2 := snd (insertSingle payload w1) in
  createPerformanceFolder "Winter Concert" w = (Fulfilled (Some "fld_1"), w1)
  /\ exists p evs,
       createPerformance winterConcert w = (Fulfilled (Some p), w2, evs)
       /\ calls evs = [DriveCreateFolder "Winter Concert"; StoreInsert payload]
       /\ RowInsert.drive_folder_id payload = Value "fld_1"
       /\ Performance.driveFolderId p = Some "fld_1"
       /\ Performance.createdBy p = "u1".
Proof.
  intros w w1 payload w2. split; [reflexivity|].
  eapply (@createPerformance_links_folder Reference.World
            Reference.supabase Reference.googleDriveService
            winterConcert w w1 w2 "fld_1");
    [reflexivity | reflexivity | reflexivity | repeat split].
Defined.

(** X9 at work: the Folder Service hands back the empty string. *)
Lemma createPerformance_empty_folder_id_holds :
  let w := emptyFolderId in
  let payload := insertRow winterConcert (Some "") in
  let ri := Fulfilled (success plainRow) in
  createPerformanceFolder "Winter Concert" w = (Fulfilled (Some ""), w)
  /\ exists evs,
       createPerformance winterConcert w = (Fulfilled (inserted ri), w, evs)
       /\ In (Console Warn
                "Could not create Google Drive folder for performance. Will continue without folder ID.")
             evs
       /\ In (StoreInsert payload) evs
       /\ RowInsert.drive_folder_id payload = Value ""
       /\ (forall row,
             ri = Fulfilled (success row) ->
             stores payload row ->
             exists p,
               inserted ri = Some p /\ Performance.driveFolderId p = None).
Proof.
  intros w payload ri. split; [reflexivity|].
  apply (@createPerformance_empty_folder_id Scripted.World
           Scripted.supabase Scripted.googleDriveService
           winterConcert w w w ri); reflexivity.
Defined.

(** X11 at work: delete, then look the id up again. *)
Lemma deletePerformance_then_get_holds :
  outcome (deletePerformance "perf_1" (oneRowWorld [] [])) = Fulfilled true
  /\ Reference.matching "perf_1"
       (Reference.table (world (deletePerformance "perf_1"
                                  (oneRowWorld [] [])))) = []
  /\ outcome (getPerformanceById "perf_1"
                (world (deletePerformance "perf_1" (oneRowWorld [] []))))
     = Fulfilled None.
Proof.
  split; [reflexivity|].
  apply (@deletePerformance_then_get "perf_1" (oneRowWorld [] [])).
  reflexivity.
Defined.

(** X12 at work: create, then look the new id up. *)
Lemma createPerformance_then_get_holds :
  let w := oneRowWorld [] [] in
  Reference.matching (Reference.freshId w) (Reference.table w) = []
  /\ exists p,
       outcome (createPerformance springGala w) = Fulfilled (Some p)
       /\ Performance.id p = Reference.freshId w
       /\ outcome (getPerformanceById (Performance.id p)
                     (world (createPerformance springGala w)))
          = Fulfilled (Some p).
Proof.
  intros w. split; [reflexivity|].
  apply (@createPerformance_then_get springGala w);
    [intros k _; destruct k; reflexivity | reflexivity].
Defined.

(** X13 at work: create, then delete what was created. *)
Lemma createPerformance_then_delete_holds :
  let w := oneRowWorld [] [] in
  Reference.matching (Reference.freshId w) (Reference.table w) = []
  /\ exists p,
       outcome (createPerformance winterConcert w) = Fulfilled (Some p)
       /\ outcome (deletePerformance (Performance.id p)
                     (world (createPerformance winterConcert w)))
          = Fulfilled true
       /\ Reference.table
            (world (deletePerformance (Performance.id p)
                      (world (createPerformance winterConcert w))))
          = Reference.table w
       /\ (Reference.driveFaults w = [] ->
           ~ In (Reference.freshFolder w) (Reference.folders w) ->
           Performance.driveFolderId p = Some (Reference.freshFolder w)
           /\ Reference.folders (world (createPerformance winterConcert w))
              = Reference.folders w ++ [Reference.freshFolder w]
           /\ Reference.folders
                (world (deletePerformance (Performance.id p)
                          (world (createPerformance winterConcert w))))
              = Reference.folders w).
Proof.
  intros w. split; [reflexivity|].
  apply (@createPerformance_then_delete winterConcert w);
    [intros k _; destruct k; reflexivity | reflexivity].
Defined.

(** X13 written out: the folder set before, between and after. *)
Example createPerformance_then_delete_folders :
  let w := oneRowWorld [] [] in
  let w' := world (createPerformance winterConcert w) in
  let w'' := world (deletePerformance "perf_2" w') in
  Reference.folders w = ["fld_1"]
  /\ Reference.folders w' = ["fld_1"; "fld_2"]
  /\ Reference.folders w'' = ["fld_1"]
  /\ Reference.table w'' = Reference.table w.
Proof. repeat split. Qed.

(** X14 at work: rename, then read back. *)
Lemma updatePerformance_then_get_holds :
  let w := oneRowWorld [] [] in
  let p := toPerformance
             {| Row.id := "perf_1";
                Row.title := "Winter Gala";
                Row.description := Some "";
                Row.cover_image := None;
                Row.start_date := Some "2025-12-01";
                Row.end_date := None;
                Row.tagged_users := None;
                Row.created_by := "u1";
                Row.drive_folder_id := Some "fld_1";
                Row.created_at := "t1";
                Row.updated_at := "t1" |} in
  outcome (updatePerformance renameAndReassign w) = Fulfilled (Some p)
  /\ outcome (getPerformanceById "perf_1"
                (world (updatePerformance renameAndReassign w)))
     = Fulfilled (Some p).
Proof.
  intros w p. split; [reflexivity|].
  apply (@updatePerformance_then_get renameAndReassign w p);
    [intros k _; destruct k; reflexivity | reflexivity].
Defined.

(** X15 at work: the same rename twice. *)
Lemma updatePerformance_twice_holds :
  let w := twoRowWorld [] [] in
  outcome (updatePerformance renameAndReassign
             (world (updatePerformance renameAndReassign w)))
  = outcome (updatePerformance renameAndReassign w)
  /\ Reference.table
       (world (updatePerformance renameAndReassign
                 (world (updatePerformance renameAndReassign w))))
     = Reference.table (world (updatePerformance renameAndReassign w)).
Proof.
  intros w.
  apply (@updatePerformance_twice renameAndReassign w).
  intros k _; destruct k; reflexivity.
Defined.


Example getPerformances_two_rows :
  exists ps,
    outcome (getPerformances (twoRowWorld [] [])) = Fulfilled ps
    /\ map Performance.id ps = ["perf_2"; "perf_1"].
Proof. eexists. split; reflexivity. Qed.

(** X17 at work: the store of two rows. *)
Lemma operations_keep_ids_distinct_holds :
  let w := twoRowWorld [] [] in
  NoDup (map Row.id (Reference.table w))
  /\ (forall performanceData,
        NoDup (map Row.id
                 (Reference.table
                    (world (createPerformance performanceData w)))))
  /\ (forall performanceData,
        NoDup (map Row.id
                 (Reference.table
                    (world (updatePerformance performanceData w)))))
  /\ (forall id,
        NoDup (map Row.id
                 (Reference.table (world (deletePerformance id w))))).
Proof.
  intros w.
  assert (Hn : NoDup (map Row.id (Reference.table w))).
  { cbn. constructor.
    - cbn. intros [H|[]]. discriminate H.
    - constructor; [intros []|constructor]. }
  split; [exact Hn|].
  apply (@operations_keep_ids_distinct w Hn).
Defined.
